(** * AnchorPQ example client (scripts/example-client.py)

    A shallow embedding of the Python client that builds a verification
    request: simulated ML-KEM encapsulation, HKDF key derivation,
    AES-GCM payload encryption and the request dictionary.

    Python values are modelled as the script has them: [bytes] as lists of
    bytes, [str] as lists of Unicode code points, [dict] as insertion-ordered
    association lists, exceptions as an error type.  The effects the script
    has (the operating system's random source, the clock, the network) are
    threaded through an explicit world state. *)

From Stdlib Require Import String Ascii ZArith NArith List Bool Lia.
From Stdlib Require Import QArith Qround Lqa DecimalString.
From Stdlib.Strings Require Import Byte.
Import ListNotations.

Local Open Scope Z_scope.

(** ** Python [bytes] *)

Definition bytes := list byte.

(** Consecutive slices [l[0:n]], [l[n:2n]], ... of a sequence; the last
    one may be shorter.  [fuel] bounds the number of slices. *)
Fixpoint chunks {A : Type} (fuel n : nat) (l : list A) : list (list A) :=
  match fuel with
  | O => []
  | S fuel' =>
      match l with
      | [] => []
      | _ => firstn n l :: chunks fuel' n (skipn n l)
      end
  end.

Module Bytes.

Definition to_Z (b : byte) : Z := Z.of_N (Byte.to_N b).

(** [bytes([z])] for [z] taken modulo 256. *)
Definition of_Z (z : Z) : byte :=
  match Byte.of_N (Z.to_N (z mod 256)) with
  | Some b => b
  | None => x00
  end.

Definition xor (a b : byte) : byte := of_Z (Z.lxor (to_Z a) (to_Z b)).

(** [b"\x00" * n] *)
Definition zeros (n : nat) : bytes := repeat x00 n.

(** [n.to_bytes(len, "big")] for [n] taken modulo [256 ^ len]. *)
Fixpoint big_endian (len : nat) (n : Z) : bytes :=
  match len with
  | O => []
  | S k => of_Z (Z.shiftr n (8 * Z.of_nat k)) :: big_endian k n
  end.

(** [n.to_bytes(len, "little")] for [n] taken modulo [256 ^ len]. *)
Fixpoint little_endian (len : nat) (n : Z) : bytes :=
  match len with
  | O => []
  | S k => of_Z n :: little_endian k (Z.shiftr n 8)
  end.

(** [int.from_bytes(bs, "big")] *)
Definition from_big_endian (bs : bytes) : Z :=
  fold_left (fun acc b => acc * 256 + to_Z b) bs 0.

(** [int.from_bytes(bs, "little")] *)
Definition from_little_endian (bs : bytes) : Z :=
  fold_right (fun b acc => to_Z b + 256 * acc) 0 bs.

Definition of_hex_digit (a : ascii) : Z :=
  let n := Z.of_nat (nat_of_ascii a) in
  if (48 <=? n) && (n <=? 57) then n - 48
  else if (97 <=? n) && (n <=? 102) then n - 87
  else if (65 <=? n) && (n <=? 70) then n - 55
  else 0.

(** [bytes.fromhex(s)], used to write test vectors. *)
Fixpoint fromhex (s : string) : bytes :=
  match s with
  | String hi (String lo rest) =>
      of_Z (16 * of_hex_digit hi + of_hex_digit lo) :: fromhex rest
  | _ => []
  end.

(** [s.encode("ascii")] of a literal. *)
Definition of_string (s : string) : bytes :=
  map (fun a => of_Z (Z.of_nat (nat_of_ascii a))) (list_ascii_of_string s).

End Bytes.

(** ** hashlib: SHA-256 (FIPS 180-4) *)

Module SHA256.

Definition w32 (x : Z) : Z := x mod 2 ^ 32.
Definition add32 (x y : Z) : Z := w32 (x + y).
Definition rotr (n x : Z) : Z :=
  Z.lor (Z.shiftr x n) (w32 (Z.shiftl x (32 - n))).
Definition not32 (x : Z) : Z := Z.lxor x 0xffffffff.

Definition Ch (x y z : Z) : Z := Z.lxor (Z.land x y) (Z.land (not32 x) z).
Definition Maj (x y z : Z) : Z :=
  Z.lxor (Z.lxor (Z.land x y) (Z.land x z)) (Z.land y z).
Definition Sigma0 (x : Z) : Z :=
  Z.lxor (Z.lxor (rotr 2 x) (rotr 13 x)) (rotr 22 x).
Definition Sigma1 (x : Z) : Z :=
  Z.lxor (Z.lxor (rotr 6 x) (rotr 11 x)) (rotr 25 x).
Definition sigma0 (x : Z) : Z :=
  Z.lxor (Z.lxor (rotr 7 x) (rotr 18 x)) (Z.shiftr x 3).
Definition sigma1 (x : Z) : Z :=
  Z.lxor (Z.lxor (rotr 17 x) (rotr 19 x)) (Z.shiftr x 10).

(** The first [n] primes, by trial division. *)
Definition is_prime (p : nat) : bool :=
  forallb (fun d => negb (p mod d =? 0)%nat) (seq 2 (p - 2)).
Definition primes (n : nat) : list Z :=
  map Z.of_nat (firstn n (filter is_prime (seq 2 400))).

(** The integer cube root, by bisection on [bits] bits. *)
Fixpoint cube_root (bits : nat) (x r : Z) : Z :=
  match bits with
  | O => r
  | S k =>
      let r' := r + 2 ^ Z.of_nat k in
      cube_root k x (if r' * r' * r' <=? x then r' else r)
  end.

(** The round constants: the first 32 bits of the fractional parts of the
    cube roots of the first 64 primes. *)
Definition K : list Z :=
  Eval vm_compute in
    map (fun p => w32 (cube_root 40 (p * 2 ^ 96) 0)) (primes 64).

(** The eight working variables, also the chaining value. *)
Record state := mkState {
  sa : Z; sb : Z; sc : Z; sd : Z; se : Z; sf : Z; sg : Z; sh : Z
}.

(** The initial value: the first 32 bits of the fractional parts of the
    square roots of the first eight primes. *)
Definition H0 : state :=
  Eval vm_compute in
    match map (fun p => w32 (Z.sqrt (p * 2 ^ 64))) (primes 8) with
    | [a; b; c; d; e; f; g; h] => mkState a b c d e f g h
    | _ => mkState 0 0 0 0 0 0 0 0
    end.

(** Padding: a 1 bit, zero bits up to 56 mod 64 bytes, the bit length on
    64 bits. *)
Definition pad (msg : bytes) : bytes :=
  let len := Z.of_nat (length msg) in
  msg ++ x80 :: Bytes.zeros (Z.to_nat ((55 - len) mod 64))
      ++ Bytes.big_endian 8 (8 * len).

(** The sixteen message words of a 64-byte block. *)
Definition block_words (block : bytes) : list Z :=
  map Bytes.from_big_endian (chunks 16 4 block).

(** One round: [w] holds the sixteen most recent schedule words, the
    first of which this round consumes. *)
Definition round (s : state) (k : Z) (w : list Z) : state * list Z :=
  let wt := nth 0 w 0 in
  let t1 := add32 (add32 (add32 (add32 (sh s) (Sigma1 (se s)))
                                (Ch (se s) (sf s) (sg s))) k) wt in
  let t2 := add32 (Sigma0 (sa s)) (Maj (sa s) (sb s) (sc s)) in
  let next := add32 (add32 (add32 (sigma1 (nth 14 w 0)) (nth 9 w 0))
                           (sigma0 (nth 1 w 0))) wt in
  (mkState (add32 t1 t2) (sa s) (sb s) (sc s)
           (add32 (sd s) t1) (se s) (sf s) (sg s),
   tl w ++ [next]).

Fixpoint rounds (ks : list Z) (s : state) (w : list Z) : state :=
  match ks with
  | [] => s
  | k :: ks' => let (s', w') := round s k w in rounds ks' s' w'
  end.

Definition compress (h : state) (block : bytes) : state :=
  let s := rounds K h (block_words block) in
  mkState (add32 (sa h) (sa s)) (add32 (sb h) (sb s))
          (add32 (sc h) (sc s)) (add32 (sd h) (sd s))
          (add32 (se h) (se s)) (add32 (sf h) (sf s))
          (add32 (sg h) (sg s)) (add32 (sh h) (sh s)).

Definition output (s : state) : bytes :=
  flat_map (Bytes.big_endian 4)
           [sa s; sb s; sc s; sd s; se s; sf s; sg s; sh s].

(** [hashlib.sha256(msg).digest()] *)
Definition digest (msg : bytes) : bytes :=
  let padded := pad msg in
  output (fold_left compress (chunks (length padded) 64 padded) H0).

End SHA256.

(** ** hashlib: SHA3-256 (FIPS 202) *)

Module SHA3_256.

Definition w64 (x : Z) : Z := x mod 2 ^ 64.
Definition rotl (n x : Z) : Z :=
  w64 (Z.lor (Z.shiftl x n) (Z.shiftr x (64 - n))).
Definition not64 (x : Z) : Z := Z.lxor x 0xffffffffffffffff.

(** The state: 25 lanes of 64 bits, lane [(x, y)] at index [x + 5 * y]. *)
Definition lanes := list Z.
Definition lane (a : lanes) (x y : nat) : Z :=
  nth (x mod 5 + 5 * (y mod 5)) a 0.
Definition build (f : nat -> nat -> Z) : lanes :=
  map (fun i => f (i mod 5)%nat (i / 5)%nat) (seq 0 25).

Definition rotation : list Z :=
  [  0;  1; 62; 28; 27;
    36; 44;  6; 55; 20;
     3; 10; 43; 25; 39;
    41; 45; 15; 21;  8;
    18;  2; 61; 56; 14 ].

Definition round_constants : list Z :=
  [ 0x0000000000000001; 0x0000000000008082; 0x800000000000808a;
    0x8000000080008000; 0x000000000000808b; 0x0000000080000001;
    0x8000000080008081; 0x8000000000008009; 0x000000000000008a;
    0x0000000000000088; 0x0000000080008009; 0x000000008000000a;
    0x000000008000808b; 0x800000000000008b; 0x8000000000008089;
    0x8000000000008003; 0x8000000000008002; 0x8000000000000080;
    0x000000000000800a; 0x800000008000000a; 0x8000000080008081;
    0x8000000000008080; 0x0000000080000001; 0x8000000080008008 ].

Definition theta (a : lanes) : lanes :=
  let c x := Z.lxor (Z.lxor (Z.lxor (Z.lxor (lane a x 0) (lane a x 1))
                                    (lane a x 2)) (lane a x 3)) (lane a x 4) in
  let cs := map c (seq 0 5) in
  let d x := Z.lxor (nth ((x + 4) mod 5) cs 0)
                    (rotl 1 (nth ((x + 1) mod 5) cs 0)) in
  let ds := map d (seq 0 5) in
  build (fun x y => Z.lxor (lane a x y) (nth x ds 0)).

Definition rho_pi (a : lanes) : lanes :=
  build (fun x y =>
           let x' := ((x + 3 * y) mod 5)%nat in
           rotl (nth (x' + 5 * x) rotation 0) (lane a x' x)).

Definition chi (a : lanes) : lanes :=
  build (fun x y =>
           Z.lxor (lane a x y)
                  (Z.land (not64 (lane a (x + 1) y)) (lane a (x + 2) y))).

Definition iota (rc : Z) (a : lanes) : lanes :=
  match a with
  | [] => []
  | a0 :: rest => Z.lxor a0 rc :: rest
  end.

Definition keccak_round (a : lanes) (rc : Z) : lanes :=
  iota rc (chi (rho_pi (theta a))).

Definition keccak_f (a : lanes) : lanes :=
  fold_left keccak_round round_constants a.

Definition rate : nat := 136.

(** Padding: the SHA-3 domain bits 01, then pad10*1, byte-wise. *)
Definition pad (msg : bytes) : bytes :=
  let q := (rate - length msg mod rate)%nat in
  match q with
  | 1%nat => msg ++ [x86]
  | _ => msg ++ x06 :: Bytes.zeros (q - 2) ++ [x80]
  end.

Definition absorb (a : lanes) (block : bytes) : lanes :=
  let ws := map Bytes.from_little_endian (chunks 17 8 block) in
  keccak_f (map (fun i => Z.lxor (nth i a 0) (nth i ws 0)) (seq 0 25)).

(** [hashlib.sha3_256(msg).digest()] *)
Definition digest (msg : bytes) : bytes :=
  let padded := pad msg in
  let a := fold_left absorb (chunks (length padded) rate padded)
                     (repeat 0 25) in
  flat_map (Bytes.little_endian 8) (firstn 4 a).

End SHA3_256.

(** ** cryptography.hazmat.primitives: hashes, hmac, HKDF *)

(** [hashes.HashAlgorithm]: the interface HMAC and HKDF are generic in. *)
Record HashAlgorithm := {
  name : string;
  digest_size : nat;
  block_size : nat;
  hash : bytes -> bytes
}.

Module hashes.

Definition SHA256 : HashAlgorithm :=
  {| name := "sha256"; digest_size := 32; block_size := 64;
     hash := SHA256.digest |}.

Definition SHA3_256 : HashAlgorithm :=
  {| name := "sha3-256"; digest_size := 32; block_size := 136;
     hash := SHA3_256.digest |}.

End hashes.

(** [hmac.HMAC(key, algorithm)], [update(msg)], [finalize()] (RFC 2104). *)
Definition hmac (algorithm : HashAlgorithm) (key msg : bytes) : bytes :=
  let k0 := if (block_size algorithm <? length key)%nat
            then hash algorithm key else key in
  let k := k0 ++ Bytes.zeros (block_size algorithm - length k0) in
  hash algorithm
       (map (Bytes.xor x5c) k
        ++ hash algorithm (map (Bytes.xor x36) k ++ msg)).

(** ** Exceptions and results *)

(** The exceptions the script's calls can raise. *)
Inductive exn :=
| ConnectionError            (* requests.exceptions.ConnectionError *)
| HTTPError (status : Z)     (* response.raise_for_status() *)
| JSONDecodeError            (* response.json() *)
| KeyError                   (* d[k] with k absent *)
| TypeError                  (* subscript of a value that is no dict *)
| ValueError                 (* a rejected argument of a library call *)
| UnicodeError.              (* str.encode / bytes.decode *)

Inductive Result (A : Type) :=
| Ok (a : A)
| Raise (e : exn).
Arguments Ok {A} a.
Arguments Raise {A} e.

Module HKDF.

(** The object [HKDF(algorithm=..., length=..., salt=..., info=...)]. *)
Record t := {
  algorithm : HashAlgorithm;
  length : nat;
  salt : option bytes;
  info : bytes
}.

(** The constructor refuses a length above [255 * digest_size]. *)
Definition new (algorithm : HashAlgorithm) (length : nat)
           (salt : option bytes) (info : bytes) : Result t :=
  if (255 * digest_size algorithm <? length)%nat then Raise ValueError
  else Ok {| algorithm := algorithm; length := length;
             salt := salt; info := info |}.

(** [_extract]: HMAC of the key material under the salt; an absent salt
    is [digest_size] zero bytes. *)
Definition extract (h : t) (key_material : bytes) : bytes :=
  let s := match salt h with
           | Some s => s
           | None => Bytes.zeros (digest_size (algorithm h))
           end in
  hmac (algorithm h) s key_material.

(** [_expand]: the loop
    [while digest_size * (len(output) - 1) < length], each pass
    appending [HMAC(prk, output[-1] + info + bytes([counter]))]. *)
Fixpoint expand_loop (fuel : nat) (h : t) (prk : bytes)
         (output : list bytes) (counter : Z) : list bytes :=
  match fuel with
  | O => output
  | S fuel' =>
      if (digest_size (algorithm h) * (List.length output - 1)
          <? length h)%nat
      then
        let block := hmac (algorithm h) prk
                          (last output [] ++ info h
                           ++ [Bytes.of_Z counter]) in
        expand_loop fuel' h prk (output ++ [block]) (counter + 1)
      else output
  end.

Definition expand (h : t) (prk : bytes) : bytes :=
  firstn (length h) (concat (expand_loop (length h) h prk [[]] 1)).

(** [hkdf.derive(key_material)] *)
Definition derive (h : t) (key_material : bytes) : bytes :=
  expand h (extract h key_material).

End HKDF.

(** ** base64 *)

Module base64.

Definition alphabet : bytes :=
  Bytes.of_string
    "ABCDEFGHIJKLMNOPQRSTUVWXYZabcdefghijklmnopqrstuvwxyz0123456789+/".

(** The character of a 6-bit value. *)
Definition char (n : Z) : byte := nth (Z.to_nat (n mod 64)) alphabet x41.

(** The 24-bit group of up to three bytes. *)
Definition group (a b c : byte) : Z :=
  Bytes.to_Z a * 65536 + Bytes.to_Z b * 256 + Bytes.to_Z c.

(** [base64.b64encode(bs)]: three bytes give four characters; a last
    group of one or two bytes is padded with [=]. *)
Fixpoint b64encode (bs : bytes) : bytes :=
  match bs with
  | [] => []
  | [a] =>
      let n := group a x00 x00 in
      [char (Z.shiftr n 18); char (Z.shiftr n 12); x3d; x3d]
  | [a; b] =>
      let n := group a b x00 in
      [char (Z.shiftr n 18); char (Z.shiftr n 12); char (Z.shiftr n 6);
       x3d]
  | a :: b :: c :: rest =>
      let n := group a b c in
      char (Z.shiftr n 18) :: char (Z.shiftr n 12)
      :: char (Z.shiftr n 6) :: char n :: b64encode rest
  end.

Fixpoint find (c : byte) (l : bytes) (i : Z) : option Z :=
  match l with
  | [] => None
  | x :: l' => if Byte.eqb c x then Some i else find c l' (i + 1)
  end.

(** The 6-bit value of a character of the alphabet. *)
Definition value (c : byte) : option Z := find c alphabet 0.

Definition is_pad (c : byte) : bool := Byte.eqb c x3d.

(** Modelled from the spec: the decoding that reverses the text encoding
    of the binary request fields; the script only encodes, the decoder
    belongs to the receiving service.  Strict RFC 4648 decoding: groups
    of four characters of the alphabet, [=] padding in the last group
    only, [None] on anything else. *)
Fixpoint b64decode (cs : bytes) : option bytes :=
  match cs with
  | [] => Some []
  | c1 :: c2 :: c3 :: c4 :: rest =>
      match value c1, value c2 with
      | Some v1, Some v2 =>
          if is_pad c3 && is_pad c4 then
            match rest with
            | [] => Some [Bytes.of_Z (v1 * 4 + v2 / 16)]
            | _ => None
            end
          else
            match value c3 with
            | None => None
            | Some v3 =>
                if is_pad c4 then
                  match rest with
                  | [] => Some [Bytes.of_Z (v1 * 4 + v2 / 16);
                                Bytes.of_Z (v2 * 16 + v3 / 4)]
                  | _ => None
                  end
                else
                  match value c4, b64decode rest with
                  | Some v4, Some tail =>
                      Some (Bytes.of_Z (v1 * 4 + v2 / 16)
                            :: Bytes.of_Z (v2 * 16 + v3 / 4)
                            :: Bytes.of_Z (v3 * 64 + v4) :: tail)
                  | _, _ => None
                  end
            end
      | _, _ => None
      end
  | _ => None
  end.

End base64.

(** ** Python [str] *)

(** A string is its sequence of Unicode code points. *)
Definition str := list N.

Module Str.

(** A literal. *)
Definition lit (s : string) : str := map N_of_ascii (list_ascii_of_string s).

Fixpoint eqb (s t : str) : bool :=
  match s, t with
  | [], [] => true
  | c :: s', d :: t' => N.eqb c d && eqb s' t'
  | _, _ => false
  end.

Definition byte_of_N (n : N) : byte := Bytes.of_Z (Z.of_N n).

(** The UTF-8 bytes of one code point; surrogates and values above
    U+10FFFF have none. *)
Definition encode_char (c : N) : option bytes :=
  if (c <? 0x80)%N then Some [byte_of_N c]
  else if (c <? 0x800)%N then
    Some [byte_of_N (N.lor 0xC0 (N.shiftr c 6));
          byte_of_N (N.lor 0x80 (N.land c 0x3F))]
  else if (c <? 0x10000)%N then
    if (0xD800 <=? c)%N && (c <=? 0xDFFF)%N then None
    else Some [byte_of_N (N.lor 0xE0 (N.shiftr c 12));
               byte_of_N (N.lor 0x80 (N.land (N.shiftr c 6) 0x3F));
               byte_of_N (N.lor 0x80 (N.land c 0x3F))]
  else if (c <? 0x110000)%N then
    Some [byte_of_N (N.lor 0xF0 (N.shiftr c 18));
          byte_of_N (N.lor 0x80 (N.land (N.shiftr c 12) 0x3F));
          byte_of_N (N.lor 0x80 (N.land (N.shiftr c 6) 0x3F));
          byte_of_N (N.lor 0x80 (N.land c 0x3F))]
  else None.

(** [s.encode('utf-8')] *)
Fixpoint encode (s : str) : Result bytes :=
  match s with
  | [] => Ok []
  | c :: s' =>
      match encode_char c, encode s' with
      | Some bs, Ok rest => Ok (bs ++ rest)
      | None, _ => Raise UnicodeError
      | _, Raise e => Raise e
      end
  end.

Definition continuation (b : byte) : option N :=
  let n := Byte.to_N b in
  if (0x80 <=? n)%N && (n <=? 0xBF)%N then Some (N.land n 0x3F) else None.

Definition scalar (lo c : N) : option N :=
  if (c <? lo)%N then None
  else if (0xD800 <=? c)%N && (c <=? 0xDFFF)%N then None
  else if (0x110000 <=? c)%N then None
  else Some c.

(** [bs.decode('utf-8')], strict: overlong forms, surrogates, stray and
    missing continuation bytes raise. *)
Fixpoint decode (bs : bytes) : Result str :=
  let cons (c : option N) (rest : Result str) : Result str :=
    match c, rest with
    | Some c, Ok s => Ok (c :: s)
    | None, _ => Raise UnicodeError
    | _, Raise e => Raise e
    end in
  match bs with
  | [] => Ok []
  | b0 :: r1 =>
      let n0 := Byte.to_N b0 in
      if (n0 <? 0x80)%N then cons (Some n0) (decode r1)
      else if (n0 <? 0xC0)%N then Raise UnicodeError
      else if (n0 <? 0xE0)%N then
        match r1 with
        | b1 :: r2 =>
            match continuation b1 with
            | Some n1 =>
                cons (scalar 0x80 (N.land n0 0x1F * 64 + n1)) (decode r2)
            | None => Raise UnicodeError
            end
        | _ => Raise UnicodeError
        end
      else if (n0 <? 0xF0)%N then
        match r1 with
        | b1 :: b2 :: r3 =>
            match continuation b1, continuation b2 with
            | Some n1, Some n2 =>
                cons (scalar 0x800 ((N.land n0 0x0F * 64 + n1) * 64 + n2))
                     (decode r3)
            | _, _ => Raise UnicodeError
            end
        | _ => Raise UnicodeError
        end
      else if (n0 <? 0xF8)%N then
        match r1 with
        | b1 :: b2 :: b3 :: r4 =>
            match continuation b1, continuation b2, continuation b3 with
            | Some n1, Some n2, Some n3 =>
                cons (scalar 0x10000
                        (((N.land n0 0x07 * 64 + n1) * 64 + n2) * 64 + n3))
                     (decode r4)
            | _, _, _ => Raise UnicodeError
            end
        | _ => Raise UnicodeError
        end
      else Raise UnicodeError
  end.

(** A literal in which the apostrophe stands for the double quote. *)
Definition quoted (s : string) : str :=
  map (fun c => if (c =? 0x27)%N then 0x22%N else c) (lit s).

End Str.

(** ** cryptography.hazmat.primitives.ciphers.aead: AES-GCM *)

(** The AES block cipher (FIPS 197) on blocks of sixteen byte values. *)
Module AES.

Definition xtime (a : Z) : Z :=
  let b := Z.shiftl a 1 mod 256 in
  if Z.testbit a 7 then Z.lxor b 0x1b else b.

(** Multiplication in GF(2^8) modulo x^8 + x^4 + x^3 + x + 1. *)
Fixpoint gmul_bits (n : nat) (a b : Z) : Z :=
  match n with
  | O => 0
  | S n' =>
      Z.lxor (if Z.odd b then a else 0)
             (gmul_bits n' (xtime a) (Z.shiftr b 1))
  end.
Definition gmul (a b : Z) : Z := gmul_bits 8 a b.

(** The inverse as the 254th power (0 for 0). *)
Definition ginv (a : Z) : Z := fold_left (fun acc _ => gmul acc a) (seq 0 254) 1.

Definition rotl8 (n x : Z) : Z :=
  Z.lor (Z.shiftl x n) (Z.shiftr x (8 - n)) mod 256.

Definition sbox_value (a : Z) : Z :=
  let i := ginv a in
  Z.lxor (Z.lxor (Z.lxor (Z.lxor (Z.lxor i (rotl8 1 i)) (rotl8 2 i))
                         (rotl8 3 i)) (rotl8 4 i)) 0x63.

Definition sbox : list Z :=
  Eval vm_compute in map (fun i => sbox_value (Z.of_nat i)) (seq 0 256).

Definition sub_byte (a : Z) : Z := nth (Z.to_nat a) sbox 0.

Definition word := list Z.
Definition sub_word (w : word) : word := map sub_byte w.
Definition rot_word (w : word) : word :=
  match w with
  | [] => []
  | a :: r => r ++ [a]
  end.
Definition xor_list (a b : list Z) : list Z :=
  map (fun p => Z.lxor (fst p) (snd p)) (combine a b).
Definition rcon (i : nat) : Z := fold_left (fun acc _ => xtime acc) (seq 1 (i - 1)) 1.

(** Key expansion: [n] further words after the [nk] words of the key. *)
Fixpoint expand_key (n nk : nat) (ws : list word) : list word :=
  match n with
  | O => ws
  | S n' =>
      let i := List.length ws in
      let temp := last ws [] in
      let temp' :=
        if (i mod nk =? 0)%nat
        then xor_list (sub_word (rot_word temp)) [rcon (i / nk); 0; 0; 0]
        else if (6 <? nk)%nat && (i mod nk =? 4)%nat then sub_word temp
        else temp in
      expand_key n' nk (ws ++ [xor_list (nth (i - nk) ws []) temp'])
  end.

(** The round keys of a 16-, 24- or 32-byte key: [nk + 7] of them. *)
Definition round_keys (key : list Z) : list (list Z) :=
  let nk := (List.length key / 4)%nat in
  map (@concat Z)
      (chunks (nk + 7) 4 (expand_key (4 * (nk + 7) - nk) nk
                                     (chunks nk 4 key))).

(** The state holds byte [(row r, column c)] at index [r + 4 * c]. *)
Definition sub_bytes (st : list Z) : list Z := map sub_byte st.
Definition shift_rows (st : list Z) : list Z :=
  map (fun i => nth (i mod 4 + 4 * ((i / 4 + i mod 4) mod 4)) st 0)
      (seq 0 16).
Definition mix_column (col : list Z) : list Z :=
  let a i := nth i col 0 in
  let x3 v := Z.lxor (xtime v) v in
  [ Z.lxor (Z.lxor (Z.lxor (xtime (a 0%nat)) (x3 (a 1%nat))) (a 2%nat)) (a 3%nat);
    Z.lxor (Z.lxor (Z.lxor (a 0%nat) (xtime (a 1%nat))) (x3 (a 2%nat))) (a 3%nat);
    Z.lxor (Z.lxor (Z.lxor (a 0%nat) (a 1%nat)) (xtime (a 2%nat))) (x3 (a 3%nat));
    Z.lxor (Z.lxor (Z.lxor (x3 (a 0%nat)) (a 1%nat)) (a 2%nat)) (xtime (a 3%nat)) ].
Definition mix_columns (st : list Z) : list Z :=
  flat_map mix_column (chunks 4 4 st).

Fixpoint middle_rounds (rks : list (list Z)) (st : list Z) : list Z :=
  match rks with
  | [] => st
  | [rk] => xor_list (shift_rows (sub_bytes st)) rk
  | rk :: rks' =>
      middle_rounds rks'
        (xor_list (mix_columns (shift_rows (sub_bytes st))) rk)
  end.

(** The cipher of one block under expanded round keys. *)
Definition cipher (rks : list (list Z)) (block : list Z) : list Z :=
  match rks with
  | [] => block
  | rk0 :: rest => middle_rounds rest (xor_list block rk0)
  end.

Definition encrypt_block (key block : bytes) : bytes :=
  map Bytes.of_Z (cipher (round_keys (map Bytes.to_Z key))
                         (map Bytes.to_Z block)).

End AES.

(** Galois/Counter Mode (NIST SP 800-38D) over AES. *)
Module GCM.

(** A block as a 128-bit number, short blocks zero-padded on the right. *)
Definition block_value (bs : bytes) : Z :=
  Bytes.from_big_endian (bs ++ Bytes.zeros (16 - List.length bs)).

Definition blocks (bs : bytes) : list Z :=
  map block_value (chunks (List.length bs) 16 bs).

(** Multiplication in GF(2^128), bit 0 being the most significant. *)
Fixpoint mul_bits (n : nat) (x v z : Z) : Z :=
  match n with
  | O => z
  | S n' =>
      let z' := if Z.testbit x (Z.of_nat n') then Z.lxor z v else z in
      let v' := if Z.odd v
                then Z.lxor (Z.shiftr v 1) (Z.shiftl 0xe1 120)
                else Z.shiftr v 1 in
      mul_bits n' x v' z'
  end.
Definition mul (x y : Z) : Z := mul_bits 128 x y 0.

Definition ghash (h : Z) (xs : list Z) : Z :=
  fold_left (fun y x => mul (Z.lxor y x) h) xs 0.

Definition xor_bytes (a b : bytes) : bytes :=
  map (fun p => Bytes.xor (fst p) (snd p)) (combine a b).

(** The counter block [i] steps after [j0]: the last 32 bits count. *)
Definition counter_block (j0 : bytes) (i : Z) : bytes :=
  firstn 12 j0
  ++ Bytes.big_endian 4 ((Bytes.from_big_endian (skipn 12 j0) + i) mod 2 ^ 32).

Fixpoint ctr (key j0 : bytes) (i : Z) (chunks : list bytes) : bytes :=
  match chunks with
  | [] => []
  | c :: rest =>
      xor_bytes c (AES.encrypt_block key (counter_block j0 i))
      ++ ctr key j0 (i + 1) rest
  end.

(** Ciphertext followed by the 16-byte tag. *)
Definition encrypt (key nonce data associated_data : bytes) : bytes :=
  let h := Bytes.from_big_endian (AES.encrypt_block key (Bytes.zeros 16)) in
  let j0 :=
    if (List.length nonce =? 12)%nat then nonce ++ [x00; x00; x00; x01]
    else Bytes.big_endian 16
           (ghash h (blocks nonce
                     ++ [8 * Z.of_nat (List.length nonce)])) in
  let c := ctr key j0 1 (chunks (List.length data) 16 data) in
  let s := ghash h (blocks associated_data ++ blocks c
                    ++ [8 * Z.of_nat (List.length associated_data) * 2 ^ 64
                        + 8 * Z.of_nat (List.length c)]) in
  let tag := xor_bytes (AES.encrypt_block key j0) (Bytes.big_endian 16 s) in
  c ++ tag.

End GCM.

Module AESGCM.

(** The object [AESGCM(key)]. *)
Record t := { key : bytes }.

Definition valid_key_size (k : bytes) : bool :=
  let n := List.length k in
  (n =? 16)%nat || (n =? 24)%nat || (n =? 32)%nat.

(** The constructor accepts keys of 128, 192 and 256 bits only. *)
Definition new (k : bytes) : Result t :=
  if valid_key_size k then Ok {| key := k |} else Raise ValueError.

(** [aesgcm.encrypt(nonce, data, associated_data)]; the nonce must have
    between 8 and 128 bytes. *)
Definition encrypt (c : t) (nonce data : bytes)
           (associated_data : option bytes) : Result bytes :=
  let n := List.length nonce in
  if (n <? 8)%nat || (128 <? n)%nat then Raise ValueError
  else Ok (GCM.encrypt (key c) nonce data
                       (match associated_data with
                        | Some a => a
                        | None => []
                        end)).

End AESGCM.

(** ** Python values, [dict] and [json.dumps] *)

(** The values the script handles: what [response.json()] returns and what
    it puts into its dictionaries.  JSON numbers with a fraction (Python
    floats) are left out: the script neither builds nor inspects one. *)
#[local] Set Warnings "-register-all".
Inductive pyval :=
| VNone
| VBool (b : bool)
| VInt (z : Z)
| VStr (s : str)
| VList (l : list pyval)
| VDict (d : list (str * pyval)).

(** A [dict] keeps its items in insertion order. *)
Definition dict := list (str * pyval).

Module Dict.

Fixpoint get (d : dict) (k : str) : option pyval :=
  match d with
  | [] => None
  | (k', v) :: d' => if Str.eqb k k' then Some v else get d' k
  end.

Definition keys (d : dict) : list str := map fst d.

End Dict.

(** [v[k]] for a string key [k]. *)
Definition getitem (v : pyval) (k : str) : Result pyval :=
  match v with
  | VDict d =>
      match Dict.get d k with
      | Some x => Ok x
      | None => Raise KeyError
      end
  | _ => Raise TypeError
  end.

Module json.

Definition hex_digit (n : N) : N :=
  if (n <? 10)%N then (48 + n)%N else (87 + n)%N.

(** ['\\u{0:04x}'.format(n)] *)
Definition u_escape (n : N) : str :=
  [ 0x5C; 0x75;
    hex_digit (N.land (N.shiftr n 12) 15); hex_digit (N.land (N.shiftr n 8) 15);
    hex_digit (N.land (N.shiftr n 4) 15); hex_digit (N.land n 15) ]%N.

(** The replacement of one character by [encode_basestring_ascii]:
    printable ASCII stays, except the quote and the backslash. *)
Definition escape_char (c : N) : str :=
  if (c =? 0x22)%N then [0x5C; 0x22]%N
  else if (c =? 0x5C)%N then [0x5C; 0x5C]%N
  else if (0x20 <=? c)%N && (c <=? 0x7E)%N then [c]
  else if (c =? 0x0A)%N then [0x5C; 0x6E]%N
  else if (c =? 0x0D)%N then [0x5C; 0x72]%N
  else if (c =? 0x09)%N then [0x5C; 0x74]%N
  else if (c =? 0x08)%N then [0x5C; 0x62]%N
  else if (c =? 0x0C)%N then [0x5C; 0x66]%N
  else if (c <? 0x10000)%N then u_escape c
  else
    let n := (c - 0x10000)%N in
    u_escape (N.lor 0xD800 (N.land (N.shiftr n 10) 0x3FF))
    ++ u_escape (N.lor 0xDC00 (N.land n 0x3FF)).

Definition encode_basestring_ascii (s : str) : str :=
  (0x22 :: flat_map escape_char s ++ [0x22])%N.

(** [sep.join(items)] *)
Fixpoint join (sep : str) (items : list str) : str :=
  match items with
  | [] => []
  | [x] => x
  | x :: rest => x ++ sep ++ join sep rest
  end.

Definition int_repr (z : Z) : str :=
  Str.lit (DecimalString.NilZero.string_of_int (Z.to_int z)).

(** [json.dumps(v)] with the default separators and [ensure_ascii]. *)
Fixpoint dumps (v : pyval) : str :=
  match v with
  | VNone => Str.lit "null"
  | VBool true => Str.lit "true"
  | VBool false => Str.lit "false"
  | VInt z => int_repr z
  | VStr s => encode_basestring_ascii s
  | VList l =>
      Str.lit "[" ++ join (Str.lit ", ") (map dumps l) ++ Str.lit "]"
  | VDict d =>
      Str.lit "{"
      ++ join (Str.lit ", ")
              (map (fun kv => encode_basestring_ascii (fst kv)
                              ++ Str.lit ": " ++ dumps (snd kv)) d)
      ++ Str.lit "}"
  end.

End json.

(** ** The world the script runs in *)

Inductive http_method := GET | POST.

(** A call of [requests.get] or [requests.post]. *)
Record http_request := {
  method : http_method;
  url : str;
  json_body : option pyval
}.

(** What a call meets: no connection, or a response with its status code
    and its body when that is JSON. *)
Inductive http_outcome :=
| Unreachable
| Response (status_code : Z) (body : option pyval).

Record World := {
  SERVER_URL : str;                       (* sys.argv[1] or the default *)
  urandom : nat -> byte;                  (* the bytes the OS random source delivers *)
  consumed : nat;                         (* how many of them were drawn *)
  clock : Q;                              (* time.time(), in seconds *)
  network : http_request -> http_outcome; (* the far side of the network *)
  sent : list http_request                (* the calls issued, latest first *)
}.

(** Computations of the script: they read and change the world and return
    a value or raise. *)
Definition M (A : Type) : Type := World -> Result A * World.

Definition ret {A} (a : A) : M A := fun w => (Ok a, w).
Definition raise {A} (e : exn) : M A := fun w => (Raise e, w).
Definition bind {A B} (c : M A) (k : A -> M B) : M B :=
  fun w =>
    match c w with
    | (Ok a, w') => k a w'
    | (Raise e, w') => (Raise e, w')
    end.
Definition lift {A} (r : Result A) : M A := fun w => (r, w).

Notation "x <- c ;; k" := (bind c (fun x => k))
  (at level 61, c at next level, right associativity).
Notation "c ;;; k" := (bind c (fun _ => k))
  (at level 61, right associativity).

(** The world after [n] more random bytes were drawn. *)
Definition advance (n : nat) (w : World) : World :=
  {| SERVER_URL := SERVER_URL w; urandom := urandom w;
     consumed := (consumed w + n)%nat; clock := clock w;
     network := network w; sent := sent w |}.

(** The world after one more network call was issued. *)
Definition log_call (r : http_request) (w : World) : World :=
  {| SERVER_URL := SERVER_URL w; urandom := urandom w;
     consumed := consumed w; clock := clock w;
     network := network w; sent := r :: sent w |}.

(** The [n] bytes the random source delivers from position [from] on. *)
Definition random_bytes (w : World) (from n : nat) : bytes :=
  map (urandom w) (seq from n).

(** [secrets.token_bytes(n)]: the next [n] bytes of the random source. *)
Definition token_bytes (n : nat) : M bytes :=
  fun w => (Ok (random_bytes w (consumed w) n), advance n w).

(** [int(x)] of a float: truncation towards zero. *)
Definition int_of (x : Q) : Z :=
  if Qle_bool 0 x then Qfloor x else Qceiling x.

(** [int(time.time() * 1000)]; the product is taken exactly. *)
Definition time_millis : M Z :=
  fun w => (Ok (int_of (clock w * 1000)), w).

Record response := {
  status : Z;
  content : option pyval
}.

(** [requests.get(url)] and [requests.post(url, json=body)]. *)
Definition request (m : http_method) (u : str) (b : option pyval)
  : M response :=
  fun w =>
    let r := {| method := m; url := u; json_body := b |} in
    match network w r with
    | Unreachable => (Raise ConnectionError, log_call r w)
    | Response code body =>
        (Ok {| status := code; content := body |}, log_call r w)
    end.

(** [response.raise_for_status()] *)
Definition raise_for_status (r : response) : M unit :=
  if (400 <=? status r) && (status r <? 600)
  then raise (HTTPError (status r)) else ret tt.

(** [response.json()] *)
Definition response_json (r : response) : M pyval :=
  match content r with
  | Some v => ret v
  | None => raise JSONDecodeError
  end.

(** ** The script *)

Definition server_url : M str := fun w => (Ok (SERVER_URL w), w).

(** Fetch the server's ML-KEM public key. *)
Definition get_server_public_key : M pyval :=
  base <- server_url ;;
  response <- request GET (base ++ Str.lit "/public-key") None ;;
  raise_for_status response ;;;
  response_json response.

(** Simulate ML-KEM encapsulation: returns
    [(encapsulated_key, shared_secret)]. *)
Definition simulate_mlkem_encapsulation (public_key_b64 : pyval)
  : M (bytes * bytes) :=
  encapsulated_key <- token_bytes 1088 ;;
  shared_secret <- token_bytes 32 ;;
  ret (encapsulated_key, shared_secret).

(** The default of [derive_aes_key]'s [info] argument. *)
Definition default_info : bytes :=
  Bytes.of_string "AnchorPQ-v1-IntegrityVerification".

(** Derive the AES-256 key from the shared secret. *)
Definition derive_aes_key (shared_secret info : bytes) : M bytes :=
  hkdf <- lift (HKDF.new hashes.SHA256 32 None info) ;;
  ret (HKDF.derive hkdf shared_secret).

(** Encrypt the payload using AES-256-GCM: returns
    IV || ciphertext (which includes the auth tag). *)
Definition encrypt_payload (key : bytes) (payload : dict) : M bytes :=
  plaintext <- lift (Str.encode (json.dumps (VDict payload))) ;;
  iv <- token_bytes 12 ;;
  aesgcm <- lift (AESGCM.new key) ;;
  ciphertext <- lift (AESGCM.encrypt aesgcm iv plaintext None) ;;
  ret (iv ++ ciphertext).

(** [base64.b64encode(bs).decode('utf-8')] *)
Definition b64_text (bs : bytes) : M str :=
  lift (Str.decode (base64.b64encode bs)).

(** Create a complete verification request. *)
Definition create_verification_request
           (merkle_root version variant signer_fingerprint : str) : M dict :=
  (* Step 1: get the server's public key *)
  key_info <- get_server_public_key ;;
  lift (getitem key_info (Str.lit "keyId")) ;;;
  lift (getitem key_info (Str.lit "parameterSet")) ;;;
  (* Step 2: encapsulate the shared secret (simulation) *)
  public_key <- lift (getitem key_info (Str.lit "publicKey")) ;;
  kem <- simulate_mlkem_encapsulation public_key ;;
  let (encapsulated_key, shared_secret) := kem in
  (* Step 3: derive the AES key *)
  aes_key <- derive_aes_key shared_secret default_info ;;
  (* Step 4: create the integrity payload *)
  let payload :=
    [ (Str.lit "merkleRoot", VStr merkle_root);
      (Str.lit "version", VStr version);
      (Str.lit "variant", VStr variant);
      (Str.lit "signerFingerprint", VStr signer_fingerprint) ] in
  (* Step 5: encrypt the payload *)
  encrypted_payload <- encrypt_payload aes_key payload ;;
  (* Step 6: create the request *)
  encapsulatedKey <- b64_text encapsulated_key ;;
  encryptedPayload <- b64_text encrypted_payload ;;
  timestamp <- time_millis ;;
  ret [ (Str.lit "encapsulatedKey", VStr encapsulatedKey);
        (Str.lit "encryptedPayload", VStr encryptedPayload);
        (Str.lit "timestamp", VInt timestamp) ].




(** ** Notions used in the statements *)

(** A string of ASCII characters only. *)
Definition ascii_str (s : str) : Prop := Forall (fun c => (c < 128)%N) s.

(** Bytes that are ASCII characters. *)
Definition ascii_bytes (bs : bytes) : Prop :=
  Forall (fun b => (Byte.to_N b < 128)%N) bs.

Definition is_ok {A} (r : Result A) : bool :=
  match r with
  | Ok _ => true
  | Raise _ => false
  end.

(** The call [get_server_public_key] issues. *)
Definition public_key_call (w : World) : http_request :=
  {| method := GET; url := SERVER_URL w ++ Str.lit "/public-key";
     json_body := None |}.

(** The server answers the public-key call with a key descriptor: no error
    status, a JSON object with [keyId], [parameterSet] and [publicKey]. *)
Definition serves_key_descriptor (w : World) : bool :=
  match network w (public_key_call w) with
  | Response code (Some key_info) =>
      negb ((400 <=? code) && (code <? 600))
      && is_ok (getitem key_info (Str.lit "keyId"))
      && is_ok (getitem key_info (Str.lit "parameterSet"))
      && is_ok (getitem key_info (Str.lit "publicKey"))
  | _ => false
  end.

(** The dictionary built in step 4 of [create_verification_request]. *)
Definition integrity_payload
           (merkle_root version variant signer_fingerprint : str) : dict :=
  [ (Str.lit "merkleRoot", VStr merkle_root);
    (Str.lit "version", VStr version);
    (Str.lit "variant", VStr variant);
    (Str.lit "signerFingerprint", VStr signer_fingerprint) ].

(** The key [derive_aes_key] computes: HKDF over SHA-256, 32 bytes,
    no salt. *)
Definition hkdf_sha256_key (shared_secret info : bytes) : bytes :=
  HKDF.derive {| HKDF.algorithm := hashes.SHA256; HKDF.length := 32;
                 HKDF.salt := None; HKDF.info := info |} shared_secret.

(** Modelled from the spec: the derivation the server is documented to
    use, HKDF over SHA3-256, of which the repository holds no code; the
    length, the absent salt and the context are the client's. *)
Definition documented_server_key (shared_secret info : bytes) : bytes :=
  HKDF.derive {| HKDF.algorithm := hashes.SHA3_256; HKDF.length := 32;
                 HKDF.salt := None; HKDF.info := info |} shared_secret.

(** Modelled from the spec: reading a text-encoded binary field back, as
    the receiving service does; the script holds no decoder. *)
Definition decode_field (text : str) : option bytes :=
  match Str.encode text with
  | Ok cs => base64.b64decode cs
  | Raise _ => None
  end.

(** The same world with another random source, or another clock. *)
Definition with_urandom (f : nat -> byte) (w : World) : World :=
  {| SERVER_URL := SERVER_URL w; urandom := f; consumed := consumed w;
     clock := clock w; network := network w; sent := sent w |}.



(** *** A concrete world: the values of [main], a server that answers *)

Definition main_merkle_root : str :=
  Str.lit "a1b2c3d4e5f6789012345678901234567890123456789012345678901234abcd".
Definition main_version : str := Str.lit "1.0.0".
Definition main_variant : str := Str.lit "release".
Definition main_signer_fingerprint : str :=
  Str.lit "fedcba0987654321fedcba0987654321fedcba0987654321fedcba09876543fe".

Definition demo_key_info : pyval :=
  VDict [ (Str.lit "keyId", VStr (Str.lit "k1"));
          (Str.lit "parameterSet", VStr (Str.lit "level3"));
          (Str.lit "publicKey", VStr (Str.lit "cHVibGljLWtleQ==")) ].

Definition demo_world : World :=
  {| SERVER_URL := Str.lit "http://localhost:8080";
     urandom := fun i => Bytes.of_Z (Z.of_nat i);
     consumed := 0;
     clock := 1700000000123 # 1000;
     network := fun r =>
                  match method r with
                  | GET => Response 200 (Some demo_key_info)
                  | POST => Response 200 (Some (VDict []))
                  end;
     sent := [] |}.

(** The same world, its random source delivering other bytes from
    position 1088 on. *)
Definition demo_world_other_secret : World :=
  with_urandom (fun i => if (i <? 1088)%nat then Bytes.of_Z (Z.of_nat i)
                         else xff) demo_world.




(** A world whose server cannot be reached, and one whose server answers
    the public-key call with an object that lacks [keyId]. *)
Definition offline_world : World :=
  {| SERVER_URL := Str.lit "http://localhost:8080";
     urandom := fun i => Bytes.of_Z (Z.of_nat i);
     consumed := 0;
     clock := 1700000000123 # 1000;
     network := fun _ => Unreachable;
     sent := [] |}.


(** A world whose server answers every call with status 500 and a JSON
    body. *)
Definition failing_world : World :=
  {| SERVER_URL := Str.lit "http://localhost:8080";
     urandom := fun i => Bytes.of_Z (Z.of_nat i);
     consumed := 0;
     clock := 1700000000123 # 1000;
     network := fun _ => Response 500 (Some (VDict []));
     sent := [] |}.


(** The same world behind another network. *)
Definition with_network (f : http_request -> http_outcome) (w : World)
  : World :=
  {| SERVER_URL := SERVER_URL w; urandom := urandom w;
     consumed := consumed w; clock := clock w; network := f;
     sent := sent w |}.

(** A character of base64 text: a letter of the alphabet or the padding
    sign. *)
Definition base64_symbol (c : byte) : Prop :=
  In c base64.alphabet \/ c = x3d.

(** Modelled from RFC 8259 (the script holds no JSON parser): a hex digit,
    and one unit of the inside of a JSON string, which is an unescaped
    character (not a control character, the quote or the backslash) or
    one complete escape. *)
Definition json_hex (c : N) : bool :=
  ((48 <=? c) && (c <=? 57) || (97 <=? c) && (c <=? 102)
   || (65 <=? c) && (c <=? 70))%N.

Definition json_string_unit (u : str) : bool :=
  match u with
  | [c] => ((0x20 <=? c) && negb (c =? 0x22) && negb (c =? 0x5C))%N
  | [b; e] =>
      ((b =? 0x5C)
       && existsb (N.eqb e) [0x22; 0x5C; 0x2F; 0x62; 0x66; 0x6E; 0x72; 0x74])%N
  | [b; u; h1; h2; h3; h4] =>
      ((b =? 0x5C) && (u =? 0x75))%N
      && json_hex h1 && json_hex h2 && json_hex h3 && json_hex h4
  | _ => false
  end.
(** * Properties *)

(** ** Test vectors of the primitives *)

Example sha256_abc :
  SHA256.digest (Bytes.of_string "abc")
  = Bytes.fromhex
      "ba7816bf8f01cfea414140de5dae2223b00361a396177a9cb410ff61f20015ad".
Proof. vm_compute. reflexivity. Qed.

Example sha256_empty :
  SHA256.digest []
  = Bytes.fromhex
      "e3b0c44298fc1c149afbf4c8996fb92427ae41e4649b934ca495991b7852b855".
Proof. vm_compute. reflexivity. Qed.

Example sha256_two_blocks :
  SHA256.digest
    (Bytes.of_string "abcdbcdecdefdefgefghfghighijhijkijkljklmklmnlmnomnopnopq")
  = Bytes.fromhex
      "248d6a61d20638b8e5c026930c3e6039a33ce45964ff2167f6ecedd419db06c1".
Proof. vm_compute. reflexivity. Qed.

Example sha3_256_abc :
  SHA3_256.digest (Bytes.of_string "abc")
  = Bytes.fromhex
      "3a985da74fe225b2045c172d6bd390bd855f086e3e9d525b46bfe24511431532".
Proof. vm_compute. reflexivity. Qed.

Example sha3_256_empty :
  SHA3_256.digest []
  = Bytes.fromhex
      "a7ffc6f8bf1ed76651c14756a061d662f580ff4de43b49fa82d80a4b80f8434a".
Proof. vm_compute. reflexivity. Qed.

Example sha3_256_135_bytes :
  SHA3_256.digest (repeat x61 135)
  = Bytes.fromhex
      "8094bb53c44cfb1e67b7c30447f9a1c33696d2463ecc1d9c92538913392843c9".
Proof. vm_compute. reflexivity. Qed.

Example sha3_256_200_bytes :
  SHA3_256.digest (repeat x61 200)
  = Bytes.fromhex
      "cce34485baf2bf2aca99b94833892a4f52896d3d153f7b840cc4f9fe695f1387".
Proof. vm_compute. reflexivity. Qed.

(** RFC 4231, test case 2. *)
Example hmac_sha256_rfc4231 :
  hmac hashes.SHA256 (Bytes.of_string "Jefe")
       (Bytes.of_string "what do ya want for nothing?")
  = Bytes.fromhex
      "5bdcc146bf60754e6a042426089575c75a003f089d2739839dec58b964ec3843".
Proof. vm_compute. reflexivity. Qed.

Example hmac_sha256_long_key :
  hmac hashes.SHA256 (repeat xaa 131)
       (Bytes.of_string "Test Using Larger Than Block-Size Key - Hash Key First")
  = Bytes.fromhex
      "60e431591ee0b67f0d8a26aacbf5b77f8e0bc6213728c5140546040f0ee37f54".
Proof. vm_compute. reflexivity. Qed.

Example hmac_sha3_256_jefe :
  hmac hashes.SHA3_256 (Bytes.of_string "Jefe")
       (Bytes.of_string "what do ya want for nothing?")
  = Bytes.fromhex
      "c7d4072e788877ae3596bbb0da73b887c9171f93095b294ae857fbe2645e1ba5".
Proof. vm_compute. reflexivity. Qed.

(** RFC 5869, test case 1 (SHA-256, 42 bytes of output). *)
Example hkdf_sha256_rfc5869_1 :
  HKDF.derive
    {| HKDF.algorithm := hashes.SHA256; HKDF.length := 42;
       HKDF.salt := Some (Bytes.fromhex "000102030405060708090a0b0c");
       HKDF.info := Bytes.fromhex "f0f1f2f3f4f5f6f7f8f9" |}
    (repeat x0b 22)
  = Bytes.fromhex
      "3cb25f25faacd57a90434f64d0362f2a2d2d0a90cf1a5a4c5db02d56ecc4c5bf34007208d5b887185865".
Proof. vm_compute. reflexivity. Qed.

(** RFC 5869, test case 3 (no salt, no info). *)
Example hkdf_sha256_rfc5869_3 :
  HKDF.derive
    {| HKDF.algorithm := hashes.SHA256; HKDF.length := 42;
       HKDF.salt := None; HKDF.info := [] |}
    (repeat x0b 22)
  = Bytes.fromhex
      "8da4e775a563c18f715f802a063c5a31b8a11f5c5ee1879ec3454e5f3c738d2d9d201395faa4b61a96c8".
Proof. vm_compute. reflexivity. Qed.

(** FIPS 197, appendix C: AES-128, AES-192 and AES-256. *)
Example aes128_fips197 :
  AES.encrypt_block (Bytes.fromhex "000102030405060708090a0b0c0d0e0f")
                    (Bytes.fromhex "00112233445566778899aabbccddeeff")
  = Bytes.fromhex "69c4e0d86a7b0430d8cdb78070b4c55a".
Proof. vm_compute. reflexivity. Qed.

Example aes192_fips197 :
  AES.encrypt_block
    (Bytes.fromhex "000102030405060708090a0b0c0d0e0f1011121314151617")
    (Bytes.fromhex "00112233445566778899aabbccddeeff")
  = Bytes.fromhex "dda97ca4864cdfe06eaf70a0ec0d7191".
Proof. vm_compute. reflexivity. Qed.

Example aes256_fips197 :
  AES.encrypt_block
    (Bytes.fromhex
       "000102030405060708090a0b0c0d0e0f101112131415161718191a1b1c1d1e1f")
    (Bytes.fromhex "00112233445566778899aabbccddeeff")
  = Bytes.fromhex "8ea2b7ca516745bfeafc49904b496089".
Proof. vm_compute. reflexivity. Qed.

(** The GCM specification's test cases 13 to 16 (AES-256). *)
Example gcm_test_case_13 :
  GCM.encrypt (Bytes.zeros 32) (Bytes.zeros 12) [] []
  = Bytes.fromhex "530f8afbc74536b9a963b4f1c4cb738b".
Proof. vm_compute. reflexivity. Qed.

Example gcm_test_case_14 :
  GCM.encrypt (Bytes.zeros 32) (Bytes.zeros 12) (Bytes.zeros 16) []
  = Bytes.fromhex
      "cea7403d4d606b6e074ec5d3baf39d18d0d1c8a799996bf0265b98b5d48ab919".
Proof. vm_compute. reflexivity. Qed.

Example gcm_test_case_15 :
  GCM.encrypt
    (Bytes.fromhex
       "feffe9928665731c6d6a8f9467308308feffe9928665731c6d6a8f9467308308")
    (Bytes.fromhex "cafebabefacedbaddecaf888")
    (Bytes.fromhex
       "d9313225f88406e5a55909c5aff5269a86a7a9531534f7da2e4c303d8a318a721c3c0c95956809532fcf0e2449a6b525b16aedf5aa0de657ba637b391aafd255")
    []
  = Bytes.fromhex
      "522dc1f099567d07f47f37a32a84427d643a8cdcbfe5c0c97598a2bd2555d1aa8cb08e48590dbb3da7b08b1056828838c5f61e6393ba7a0abcc9f662898015adb094dac5d93471bdec1a502270e3cc6c".
Proof. vm_compute. reflexivity. Qed.

Example gcm_test_case_16 :
  GCM.encrypt
    (Bytes.fromhex
       "feffe9928665731c6d6a8f9467308308feffe9928665731c6d6a8f9467308308")
    (Bytes.fromhex "cafebabefacedbaddecaf888")
    (Bytes.fromhex
       "d9313225f88406e5a55909c5aff5269a86a7a9531534f7da2e4c303d8a318a721c3c0c95956809532fcf0e2449a6b525b16aedf5aa0de657ba637b39")
    (Bytes.fromhex "feedfacedeadbeeffeedfacedeadbeefabaddad2")
  = Bytes.fromhex
      "522dc1f099567d07f47f37a32a84427d643a8cdcbfe5c0c97598a2bd2555d1aa8cb08e48590dbb3da7b08b1056828838c5f61e6393ba7a0abcc9f66276fc6ece0f4e1768cddf8853bb2d551b".
Proof. vm_compute. reflexivity. Qed.

(** The GCM specification's test case 17: a nonce of 8 bytes. *)
Example gcm_test_case_17 :
  GCM.encrypt
    (Bytes.fromhex
       "feffe9928665731c6d6a8f9467308308feffe9928665731c6d6a8f9467308308")
    (Bytes.fromhex "cafebabefacedbad")
    (Bytes.fromhex
       "d9313225f88406e5a55909c5aff5269a86a7a9531534f7da2e4c303d8a318a721c3c0c95956809532fcf0e2449a6b525b16aedf5aa0de657ba637b39")
    (Bytes.fromhex "feedfacedeadbeeffeedfacedeadbeefabaddad2")
  = Bytes.fromhex
      "c3762df1ca787d32ae47c13bf19844cbaf1ae14d0b976afac52ff7d79bba9de0feb582d33934a4f0954cc2363bc73f7862ac430e64abe499f47c9b1f3a337dbf46a792c45e454913fe2ea8f2".
Proof. vm_compute. reflexivity. Qed.

Example json_dumps_example :
  json.dumps (VDict [(Str.lit "a", VStr (Str.lit "x\y"));
                     (Str.lit "n", VList [VInt (-12); VNone; VBool true])])
  = Str.quoted "{'a': 'x\\y', 'n': [-12, null, true]}".
Proof. vm_compute. reflexivity. Qed.

(** ** Bytes and byte strings *)



Lemma to_Z_of_Z (z : Z) : Bytes.to_Z (Bytes.of_Z z) = z mod 256.
Proof.
  unfold Bytes.of_Z, Bytes.to_Z.
  pose proof (Z.mod_pos_bound z 256 ltac:(lia)) as Hz.
  destruct (Byte.of_N (Z.to_N (z mod 256))) as [b|] eqn:E.
  - apply Byte.to_of_N in E. rewrite E. lia.
  - apply Byte.of_N_None_iff in E. lia.
Qed.

Lemma big_endian_length (n : nat) (z : Z) :
  List.length (Bytes.big_endian n z) = n.
Proof. induction n; simpl; congruence. Qed.

Lemma zeros_length (n : nat) : List.length (Bytes.zeros n) = n.
Proof. apply repeat_length. Qed.

(** ** Hashes, HMAC and HKDF *)

Lemma sha256_output_length (s : SHA256.state) :
  List.length (SHA256.output s) = 32%nat.
Proof.
  unfold SHA256.output.
  cbn [flat_map]. rewrite !length_app, !big_endian_length. reflexivity.
Qed.

Lemma sha256_digest_length (msg : bytes) :
  List.length (SHA256.digest msg) = 32%nat.
Proof. apply sha256_output_length. Qed.

Lemma hmac_sha256_length (key msg : bytes) :
  List.length (hmac hashes.SHA256 key msg) = 32%nat.
Proof. apply sha256_digest_length. Qed.

Lemma hkdf_expand_one_block (h : HKDF.t) (prk : bytes) :
  digest_size (HKDF.algorithm h) = HKDF.length h ->
  (2 <= HKDF.length h)%nat ->
  List.length (hmac (HKDF.algorithm h) prk (HKDF.info h ++ [x01]))
  = HKDF.length h ->
  HKDF.expand h prk = hmac (HKDF.algorithm h) prk (HKDF.info h ++ [x01]).
Proof.
  intros Hds Hlen Hblock. unfold HKDF.expand.
  destruct (HKDF.length h) as [|[|fuel]] eqn:El; try lia.
  cbn [HKDF.expand_loop]. rewrite El, Hds.
  cbn [List.length last app].
  replace (S (S fuel) * (1 - 1) <? S (S fuel))%nat with true
    by (symmetry; apply Nat.ltb_lt; lia).
  replace (S (S fuel) * (2 - 1) <? S (S fuel))%nat with false
    by (symmetry; apply Nat.ltb_ge; lia).
  change (Bytes.of_Z 1) with x01.
  destruct fuel; cbn [concat app]; rewrite app_nil_r;
    apply firstn_all2; rewrite Hblock; lia.
Qed.

Lemma hkdf_sha256_32_derive (info key_material : bytes) :
  HKDF.derive {| HKDF.algorithm := hashes.SHA256; HKDF.length := 32;
                 HKDF.salt := None; HKDF.info := info |} key_material
  = hmac hashes.SHA256
         (hmac hashes.SHA256 (Bytes.zeros 32) key_material)
         (info ++ [x01]).
Proof.
  unfold HKDF.derive. rewrite hkdf_expand_one_block.
  - reflexivity.
  - reflexivity.
  - cbn [HKDF.length]. lia.
  - apply hmac_sha256_length.
Qed.

(** The object the script's [HKDF(...)] call builds. *)
Lemma hkdf_new_sha256 (info : bytes) :
  HKDF.new hashes.SHA256 32 None info
  = Ok {| HKDF.algorithm := hashes.SHA256; HKDF.length := 32;
          HKDF.salt := None; HKDF.info := info |}.
Proof. reflexivity. Qed.

(** ** Text: ASCII strings and their encoding *)

Create HintDb ascii discriminated.

Lemma ascii_str_nil : ascii_str [].
Proof. constructor. Qed.

Lemma ascii_str_cons (c : N) (s : str) :
  (c < 128)%N -> ascii_str s -> ascii_str (c :: s).
Proof. intros; constructor; assumption. Qed.

Lemma ascii_str_app (s t : str) :
  ascii_str s -> ascii_str t -> ascii_str (s ++ t).
Proof. intros; apply Forall_app; split; assumption. Qed.

#[local] Hint Resolve ascii_str_nil ascii_str_cons ascii_str_app : ascii.

Lemma ascii_str_flat_map {A} (f : A -> str) (l : list A) :
  (forall x, In x l -> ascii_str (f x)) -> ascii_str (flat_map f l).
Proof.
  induction l as [|x l IH]; intros H; cbn [flat_map]; auto with ascii.
  apply ascii_str_app; [apply H; left; reflexivity|].
  apply IH. intros y Hy. apply H. right. exact Hy.
Qed.

Lemma ascii_str_join (sep : str) (items : list str) :
  ascii_str sep -> Forall ascii_str items -> ascii_str (json.join sep items).
Proof.
  intros Hsep H. induction H as [|x l Hx Hl IH]; cbn [json.join];
    auto with ascii.
  destruct l; auto with ascii.
Qed.

(** Encoding an ASCII string gives one byte per character. *)
Lemma encode_ascii (s : str) :
  ascii_str s -> Str.encode s = Ok (map Str.byte_of_N s).
Proof.
  induction 1 as [|c s Hc Hs IH]; [reflexivity|].
  cbn [Str.encode map]. rewrite IH. unfold Str.encode_char.
  apply N.ltb_lt in Hc. rewrite Hc. reflexivity.
Qed.

Lemma hex_digit_ascii (n : N) : (json.hex_digit (N.land n 15) < 128)%N.
Proof.
  change 15%N with (N.ones 4). rewrite N.land_ones.
  pose proof (N.mod_lt n (2 ^ 4) ltac:(discriminate)) as H.
  change (2 ^ 4)%N with 16%N in *.
  unfold json.hex_digit. destruct (_ <? _)%N; lia.
Qed.

Lemma u_escape_ascii (n : N) : ascii_str (json.u_escape n).
Proof.
  unfold json.u_escape.
  repeat (apply ascii_str_cons; [first [apply hex_digit_ascii | reflexivity]|]).
  constructor.
Qed.

Lemma escape_char_ascii (c : N) : ascii_str (json.escape_char c).
Proof.
  unfold json.escape_char.
  repeat match goal with
         | |- ascii_str (if ?b then _ else _) => destruct b eqn:?
         end;
    try solve [repeat (apply ascii_str_cons; [reflexivity|]); constructor].
  - apply ascii_str_cons; [|constructor].
    apply andb_true_iff in Heqb1. destruct Heqb1 as [_ H].
    apply N.leb_le in H. lia.
  - apply u_escape_ascii.
  - apply ascii_str_app; apply u_escape_ascii.
Qed.

Lemma encode_basestring_ascii_ascii (s : str) :
  ascii_str (json.encode_basestring_ascii s).
Proof.
  unfold json.encode_basestring_ascii.
  apply ascii_str_cons; [reflexivity|].
  apply ascii_str_app.
  - apply ascii_str_flat_map. intros; apply escape_char_ascii.
  - repeat constructor.
Qed.

Lemma string_of_uint_ascii (d : Decimal.uint) :
  ascii_str (Str.lit (NilZero.string_of_uint d)).
Proof.
  assert (H : forall d, ascii_str (Str.lit (NilEmpty.string_of_uint d))).
  { clear d. induction d; cbn; try (apply ascii_str_cons; [reflexivity|]);
      first [assumption | constructor]. }
  destruct d; try apply H. repeat constructor.
Qed.

Lemma int_repr_ascii (z : Z) : ascii_str (json.int_repr z).
Proof.
  unfold json.int_repr, NilZero.string_of_int.
  destruct (Z.to_int z).
  - apply string_of_uint_ascii.
  - change (ascii_str (45%N :: Str.lit (NilZero.string_of_uint d))).
    apply ascii_str_cons; [reflexivity | apply string_of_uint_ascii].
Qed.

(** [json.dumps] with [ensure_ascii] emits ASCII only. *)
Fixpoint dumps_ascii (v : pyval) : ascii_str (json.dumps v).
Proof.
  destruct v as [|b|z|s|l|d]; cbn [json.dumps].
  - repeat constructor.
  - destruct b; repeat constructor.
  - apply int_repr_ascii.
  - apply encode_basestring_ascii_ascii.
  - apply ascii_str_app; [repeat constructor|].
    apply ascii_str_app; [|repeat constructor].
    apply ascii_str_join; [repeat constructor|].
    induction l as [|x l IHl]; constructor; [apply dumps_ascii | exact IHl].
  - apply ascii_str_app; [repeat constructor|].
    apply ascii_str_app; [|repeat constructor].
    apply ascii_str_join; [repeat constructor|].
    induction d as [|[k x] d IHd]; constructor; [|exact IHd].
    cbn [fst snd]. apply ascii_str_app;
      [apply encode_basestring_ascii_ascii|].
    apply ascii_str_app; [repeat constructor | apply dumps_ascii].
Qed.

Lemma encode_dumps (v : pyval) :
  Str.encode (json.dumps v) = Ok (map Str.byte_of_N (json.dumps v)).
Proof. apply encode_ascii, dumps_ascii. Qed.

(** ** base64 *)

(** Induction on byte strings three bytes at a time. *)
Lemma bytes_ind3 (P : bytes -> Prop) :
  P [] -> (forall a, P [a]) -> (forall a b, P [a; b]) ->
  (forall a b c rest, P rest -> P (a :: b :: c :: rest)) ->
  forall bs, P bs.
Proof.
  intros H0 H1 H2 H3.
  fix IH 1.
  intros [|a [|b [|c rest]]];
    [exact H0 | apply H1 | apply H2 | apply H3; apply IH].
Qed.



Lemma base64_char_ascii (n : Z) : (Byte.to_N (base64.char n) < 128)%N.
Proof.
  unfold base64.char.
  pose proof (Z.mod_pos_bound n 64 ltac:(lia)) as Hn.
  set (m := n mod 64) in *. clearbody m.
  assert (H : forallb
                (fun i => (Byte.to_N (nth i base64.alphabet x41) <? 128)%N)
                (seq 0 64) = true) by (vm_compute; reflexivity).
  rewrite forallb_forall in H.
  specialize (H (Z.to_nat m)). rewrite in_seq in H.
  specialize (H ltac:(lia)). apply N.ltb_lt in H. exact H.
Qed.




(** The text of [b64encode] is ASCII. *)
Lemma b64encode_ascii (bs : bytes) :
  ascii_bytes (base64.b64encode bs).
Proof.
  induction bs as [|a|a b|a b c rest IH] using bytes_ind3;
    cbn [base64.b64encode];
    repeat (apply Forall_cons;
            [first [apply base64_char_ascii | reflexivity]|]);
    first [assumption | constructor].
Qed.

(** Decoding ASCII bytes gives one character per byte ... *)
Lemma decode_ascii (bs : bytes) :
  ascii_bytes bs ->
  Str.decode bs = Ok (map Byte.to_N bs).
Proof.
  induction 1 as [|b bs Hb Hbs IH]; [reflexivity|].
  cbn [Str.decode map]. apply N.ltb_lt in Hb. rewrite Hb, IH. reflexivity.
Qed.



(** ** The script's functions, step by step *)

Lemma bind_ok {A B} (c : M A) (k : A -> M B) (w w' : World) (a : A) :
  c w = (Ok a, w') -> bind c k w = k a w'.
Proof. unfold bind. intros ->. reflexivity. Qed.

Lemma bind_raise {A B} (c : M A) (k : A -> M B) (w w' : World) (e : exn) :
  c w = (Raise e, w') -> bind c k w = (Raise e, w').
Proof. unfold bind. intros ->. reflexivity. Qed.

Lemma random_bytes_length (w : World) (from n : nat) :
  List.length (random_bytes w from n) = n.
Proof. unfold random_bytes. rewrite length_map, length_seq. reflexivity. Qed.

Lemma advance_advance (m n : nat) (w : World) :
  advance m (advance n w) = advance (n + m) w.
Proof.
  unfold advance. cbn [SERVER_URL urandom consumed clock network sent].
  f_equal. lia.
Qed.

Lemma token_bytes_run (n : nat) (w : World) :
  token_bytes n w = (Ok (random_bytes w (consumed w) n), advance n w).
Proof. reflexivity. Qed.

(** The simulated encapsulation draws 1088 bytes, then 32 more. *)
Lemma simulate_mlkem_encapsulation_run (public_key_b64 : pyval) (w : World) :
  simulate_mlkem_encapsulation public_key_b64 w
  = (Ok (random_bytes w (consumed w) 1088,
         random_bytes w (consumed w + 1088) 32),
     advance 1120 w).
Proof.
  unfold simulate_mlkem_encapsulation.
  rewrite (bind_ok _ _ _ _ _ (token_bytes_run 1088 w)).
  rewrite (bind_ok _ _ _ _ _ (token_bytes_run 32 (advance 1088 w))).
  unfold ret. rewrite advance_advance. reflexivity.
Qed.

(** Key derivation returns the HKDF-SHA-256 key and leaves the world as
    it is. *)
Lemma derive_aes_key_run (shared_secret info : bytes) (w : World) :
  derive_aes_key shared_secret info w
  = (Ok (hkdf_sha256_key shared_secret info), w).
Proof.
  unfold derive_aes_key.
  rewrite (bind_ok _ _ w w _ (f_equal (fun r => (r, w)) (hkdf_new_sha256 info))).
  reflexivity.
Qed.

Lemma hkdf_sha256_key_length (shared_secret info : bytes) :
  List.length (hkdf_sha256_key shared_secret info) = 32%nat.
Proof.
  unfold hkdf_sha256_key. rewrite hkdf_sha256_32_derive.
  apply hmac_sha256_length.
Qed.

(** Encryption under a key of an accepted size: twelve fresh random bytes,
    then the AES-GCM output for them. *)
Lemma encrypt_payload_run (key : bytes) (payload : dict) (w : World) :
  AESGCM.valid_key_size key = true ->
  let iv := random_bytes w (consumed w) 12 in
  let plaintext := map Str.byte_of_N (json.dumps (VDict payload)) in
  encrypt_payload key payload w
  = (Ok (iv ++ GCM.encrypt key iv plaintext []), advance 12 w).
Proof.
  intros Hkey iv plaintext. unfold encrypt_payload.
  rewrite (bind_ok _ _ w w plaintext)
    by (unfold lift; rewrite encode_dumps; reflexivity).
  rewrite (bind_ok _ _ _ _ _ (token_bytes_run 12 w)). fold iv.
  rewrite (bind_ok _ _ (advance 12 w) (advance 12 w) {| AESGCM.key := key |})
    by (unfold lift, AESGCM.new; rewrite Hkey; reflexivity).
  rewrite (bind_ok _ _ (advance 12 w) (advance 12 w)
                   (GCM.encrypt key iv plaintext [])).
  - reflexivity.
  - unfold lift, AESGCM.encrypt. cbn [AESGCM.key].
    unfold iv at 1 2. rewrite random_bytes_length. reflexivity.
Qed.

(** With a key of any other size the constructor raises, after the twelve
    bytes were drawn. *)
Lemma encrypt_payload_bad_key (key : bytes) (payload : dict) (w : World) :
  AESGCM.valid_key_size key = false ->
  encrypt_payload key payload w = (Raise ValueError, advance 12 w).
Proof.
  intros Hkey. unfold encrypt_payload.
  rewrite (bind_ok _ _ w w (map Str.byte_of_N (json.dumps (VDict payload))))
    by (unfold lift; rewrite encode_dumps; reflexivity).
  rewrite (bind_ok _ _ _ _ _ (token_bytes_run 12 w)).
  apply bind_raise. unfold lift, AESGCM.new. rewrite Hkey. reflexivity.
Qed.

Lemma b64_text_run (bs : bytes) (w : World) :
  b64_text bs w = (Ok (map Byte.to_N (base64.b64encode bs)), w).
Proof.
  unfold b64_text, lift. rewrite decode_ascii by apply b64encode_ascii.
  reflexivity.
Qed.


Lemma run_ok_inv {A} (a b : A) (w w' : World) :
  (Ok a, w) = (Ok b, w') -> a = b /\ w = w'.
Proof. intros H. injection H as Ha Hw. split; assumption. Qed.

Lemma get_server_public_key_run (w : World) (code : Z) (key_info : pyval) :
  network w (public_key_call w) = Response code (Some key_info) ->
  (400 <=? code) && (code <? 600) = false ->
  get_server_public_key w = (Ok key_info, log_call (public_key_call w) w).
Proof.
  intros Hnet Hcode. unfold get_server_public_key.
  rewrite (bind_ok _ _ w w (SERVER_URL w)) by reflexivity.
  rewrite (bind_ok _ _ w (log_call (public_key_call w) w)
                   {| status := code; content := Some key_info |}).
  - unfold raise_for_status. cbn [status]. rewrite Hcode.
    rewrite (bind_ok _ _ _ _ tt eq_refl). reflexivity.
  - unfold request. fold (public_key_call w). rewrite Hnet. reflexivity.
Qed.

(** Any other answer makes [get_server_public_key] raise, the call being
    logged all the same. *)
Lemma get_server_public_key_fails (w : World) :
  match network w (public_key_call w) with
  | Response code (Some _) => (400 <=? code) && (code <? 600) = true
  | _ => True
  end ->
  exists e, get_server_public_key w
            = (Raise e, log_call (public_key_call w) w).
Proof.
  intros H. unfold get_server_public_key.
  rewrite (bind_ok _ _ w w (SERVER_URL w)) by reflexivity.
  destruct (network w (public_key_call w)) as [|code body] eqn:Hnet.
  - exists ConnectionError. apply bind_raise.
    unfold request. fold (public_key_call w). rewrite Hnet. reflexivity.
  - rewrite (bind_ok _ _ w (log_call (public_key_call w) w)
                     {| status := code; content := body |})
      by (unfold request; fold (public_key_call w); rewrite Hnet;
          reflexivity).
    unfold raise_for_status. cbn [status].
    destruct ((400 <=? code) && (code <? 600)) eqn:Hcode.
    + exists (HTTPError code). apply bind_raise. reflexivity.
    + destruct body as [v|]; [congruence|].
      exists JSONDecodeError.
      rewrite (bind_ok _ _ _ _ tt eq_refl). reflexivity.
Qed.

Lemma hkdf_sha256_key_valid (shared_secret info : bytes) :
  AESGCM.valid_key_size (hkdf_sha256_key shared_secret info) = true.
Proof.
  unfold AESGCM.valid_key_size. rewrite hkdf_sha256_key_length. reflexivity.
Qed.

(** The run of [create_verification_request] against a server that serves
    a key descriptor: one network call, 1132 random bytes, and the request
    built from them. *)
Lemma create_verification_request_run
      (merkle_root version variant signer_fingerprint : str) (w : World) :
  serves_key_descriptor w = true ->
  let encapsulated_key := random_bytes w (consumed w) 1088 in
  let shared_secret := random_bytes w (consumed w + 1088) 32 in
  let aes_key := hkdf_sha256_key shared_secret default_info in
  let iv := random_bytes w (consumed w + 1120) 12 in
  let plaintext :=
    map Str.byte_of_N
        (json.dumps (VDict (integrity_payload merkle_root version variant
                                              signer_fingerprint))) in
  let encrypted_payload := iv ++ GCM.encrypt aes_key iv plaintext [] in
  create_verification_request merkle_root version variant signer_fingerprint w
  = (Ok [ (Str.lit "encapsulatedKey",
           VStr (map Byte.to_N (base64.b64encode encapsulated_key)));
          (Str.lit "encryptedPayload",
           VStr (map Byte.to_N (base64.b64encode encrypted_payload)));
          (Str.lit "timestamp", VInt (int_of (clock w * 1000))) ],
     advance 1132 (log_call (public_key_call w) w)).
Proof.
  intros Hserved. unfold serves_key_descriptor in Hserved.
  destruct (network w (public_key_call w)) as [|code [key_info|]] eqn:Hnet;
    try discriminate.
  apply andb_true_iff in Hserved. destruct Hserved as [Hserved Hpk].
  apply andb_true_iff in Hserved. destruct Hserved as [Hserved Hps].
  apply andb_true_iff in Hserved. destruct Hserved as [Hcode Hid].
  apply negb_true_iff in Hcode.
  destruct (getitem key_info (Str.lit "keyId")) as [kid|] eqn:Eid;
    [|discriminate].
  destruct (getitem key_info (Str.lit "parameterSet")) as [ps|] eqn:Eps;
    [|discriminate].
  destruct (getitem key_info (Str.lit "publicKey")) as [pk|] eqn:Epk;
    [|discriminate].
  intros encapsulated_key shared_secret aes_key iv plaintext encrypted_payload.
  set (w1 := log_call (public_key_call w) w).
  unfold create_verification_request.
  rewrite (bind_ok _ _ _ _ _ (get_server_public_key_run w code key_info Hnet Hcode)).
  fold w1.
  rewrite (bind_ok _ _ w1 w1 kid) by (unfold lift; rewrite Eid; reflexivity).
  rewrite (bind_ok _ _ w1 w1 ps) by (unfold lift; rewrite Eps; reflexivity).
  rewrite (bind_ok _ _ w1 w1 pk) by (unfold lift; rewrite Epk; reflexivity).
  rewrite (bind_ok _ _ _ _ _ (simulate_mlkem_encapsulation_run pk w1)).
  change (consumed w1) with (consumed w).
  change (random_bytes w1) with (random_bytes w).
  fold encapsulated_key shared_secret.
  rewrite (bind_ok _ _ _ _ _ (derive_aes_key_run shared_secret default_info
                                                 (advance 1120 w1))).
  fold aes_key.
  fold (integrity_payload merkle_root version variant signer_fingerprint).
  rewrite (bind_ok _ _ _ _ _
             (encrypt_payload_run aes_key
                (integrity_payload merkle_root version variant
                                   signer_fingerprint)
                (advance 1120 w1)
                (hkdf_sha256_key_valid shared_secret default_info))).
  change (consumed (advance 1120 w1)) with (consumed w + 1120)%nat.
  change (random_bytes (advance 1120 w1)) with (random_bytes w).
  fold iv plaintext encrypted_payload.
  rewrite (bind_ok _ _ _ _ _ (b64_text_run encapsulated_key _)).
  rewrite (bind_ok _ _ _ _ _ (b64_text_run encrypted_payload _)).
  rewrite (bind_ok time_millis _ _ _ _ eq_refl).
  change (clock (advance 12 (advance 1120 w1))) with (clock w).
  unfold ret. rewrite advance_advance. reflexivity.
Qed.

(** Against any other server the function raises. *)
Lemma create_verification_request_fails
      (merkle_root version variant signer_fingerprint : str) (w : World) :
  serves_key_descriptor w = false ->
  exists e,
    create_verification_request merkle_root version variant
                                signer_fingerprint w
    = (Raise e, log_call (public_key_call w) w).
Proof.
  intros Hserved. unfold serves_key_descriptor in Hserved.
  unfold create_verification_request.
  destruct (network w (public_key_call w)) as [|code [key_info|]] eqn:Hnet.
  - destruct (get_server_public_key_fails w) as [e He];
      [rewrite Hnet; exact I|].
    exists e. apply bind_raise. exact He.
  - destruct ((400 <=? code) && (code <? 600)) eqn:Hcode.
    + destruct (get_server_public_key_fails w) as [e He];
        [rewrite Hnet; exact Hcode|].
      exists e. apply bind_raise. exact He.
    + rewrite (bind_ok _ _ _ _ _
                 (get_server_public_key_run w code key_info Hnet Hcode)).
      set (w1 := log_call (public_key_call w) w).
      cbn [negb andb] in Hserved.
      destruct (getitem key_info (Str.lit "keyId")) as [kid|e] eqn:Eid.
      2:{ exists e. apply bind_raise. reflexivity. }
      rewrite (bind_ok _ _ w1 w1 kid) by reflexivity.
      destruct (getitem key_info (Str.lit "parameterSet")) as [ps|e] eqn:Eps.
      2:{ exists e. apply bind_raise. reflexivity. }
      rewrite (bind_ok _ _ w1 w1 ps) by reflexivity.
      destruct (getitem key_info (Str.lit "publicKey")) as [pk|e] eqn:Epk.
      2:{ exists e. apply bind_raise. reflexivity. }
      discriminate.
  - destruct (get_server_public_key_fails w) as [e He];
      [rewrite Hnet; exact I|].
    exists e. apply bind_raise. exact He.
Qed.

(** ** AES-GCM: the shape of the output *)

Lemma chunks_concat {A} (n fuel : nat) (l : list A) :
  (0 < n)%nat -> (List.length l <= fuel)%nat ->
  concat (chunks fuel n l) = l.
Proof.
  intros Hn. revert l.
  induction fuel as [|fuel IH]; intros l Hl.
  - destruct l; [reflexivity | cbn in Hl; lia].
  - destruct l as [|x l]; [reflexivity|].
    cbn [chunks concat]. rewrite IH.
    + apply firstn_skipn.
    + rewrite length_skipn. cbn [List.length] in *. lia.
Qed.

Lemma chunks_bounded {A} (n fuel : nat) (l : list A) :
  Forall (fun c => (List.length c <= n)%nat) (chunks fuel n l).
Proof.
  revert l. induction fuel as [|fuel IH]; intros l; [constructor|].
  destruct l as [|x l]; [constructor|].
  cbn [chunks]. constructor; [|apply IH].
  rewrite length_firstn. lia.
Qed.

Lemma xor_bytes_length (a b : bytes) :
  List.length (GCM.xor_bytes a b)
  = Nat.min (List.length a) (List.length b).
Proof. unfold GCM.xor_bytes. rewrite length_map. apply length_combine. Qed.

(** The AES cipher maps a 16-byte block to a 16-byte block, under any key
    of an accepted size. *)
Lemma aes_encrypt_block_length (key block : bytes) :
  AESGCM.valid_key_size key = true ->
  List.length block = 16%nat ->
  List.length (AES.encrypt_block key block) = 16%nat.
Proof.
  intros Hk Hb. unfold AESGCM.valid_key_size in Hk.
  unfold AES.encrypt_block. rewrite length_map.
  do 17 (destruct block as [|? block]; try discriminate Hb). clear Hb.
  do 16 (destruct key as [|? key]; [discriminate Hk|]).
  destruct key as [|? key]; [vm_compute; reflexivity|].
  do 7 (destruct key as [|? key]; [discriminate Hk|]).
  destruct key as [|? key]; [vm_compute; reflexivity|].
  do 7 (destruct key as [|? key]; [discriminate Hk|]).
  destruct key as [|? key]; [vm_compute; reflexivity|].
  cbn in Hk. discriminate Hk.
Qed.

Lemma counter_block_length (j0 : bytes) (i : Z) :
  List.length j0 = 16%nat -> List.length (GCM.counter_block j0 i) = 16%nat.
Proof.
  intros H. unfold GCM.counter_block.
  rewrite length_app, length_firstn, big_endian_length. lia.
Qed.

Lemma ctr_length (key j0 : bytes) (i : Z) (cs : list bytes) :
  AESGCM.valid_key_size key = true ->
  List.length j0 = 16%nat ->
  Forall (fun c => (List.length c <= 16)%nat) cs ->
  List.length (GCM.ctr key j0 i cs) = List.length (concat cs).
Proof.
  intros Hk Hj H. revert i.
  induction H as [|c cs Hc Hcs IH]; intros i; [reflexivity|].
  cbn [GCM.ctr concat]. rewrite !length_app, IH, xor_bytes_length.
  rewrite aes_encrypt_block_length
    by (try apply counter_block_length; assumption).
  lia.
Qed.

(** The output of AES-GCM: as many bytes as the data, then a 16-byte
    tag. *)
Lemma gcm_encrypt_length (key nonce data aad : bytes) :
  AESGCM.valid_key_size key = true ->
  List.length (GCM.encrypt key nonce data aad)
  = (List.length data + 16)%nat.
Proof.
  intros Hk. unfold GCM.encrypt.
  set (h := Bytes.from_big_endian _).
  set (j0 := if (List.length nonce =? 12)%nat then _ else _).
  assert (Hj : List.length j0 = 16%nat).
  { subst j0. destruct (List.length nonce =? 12)%nat eqn:E.
    - apply Nat.eqb_eq in E. rewrite length_app, E. reflexivity.
    - apply big_endian_length. }
  clearbody j0 h.
  rewrite length_app, xor_bytes_length, big_endian_length.
  rewrite aes_encrypt_block_length by assumption.
  rewrite ctr_length by (try apply chunks_bounded; assumption).
  rewrite chunks_concat by lia. reflexivity.
Qed.

(** ** The request dictionary *)

Lemma request_keys (a b c : pyval) :
  Dict.keys [ (Str.lit "encapsulatedKey", a); (Str.lit "encryptedPayload", b);
              (Str.lit "timestamp", c) ]
  = [Str.lit "encapsulatedKey"; Str.lit "encryptedPayload";
     Str.lit "timestamp"].
Proof. reflexivity. Qed.

Lemma request_get (a b c : pyval) :
  let req := [ (Str.lit "encapsulatedKey", a);
               (Str.lit "encryptedPayload", b);
               (Str.lit "timestamp", c) ] in
  Dict.get req (Str.lit "encapsulatedKey") = Some a
  /\ Dict.get req (Str.lit "encryptedPayload") = Some b
  /\ Dict.get req (Str.lit "timestamp") = Some c
  /\ Dict.get req (Str.lit "keyId") = None.
Proof. repeat split. Qed.

(** The JSON text of the integrity payload: the four fields in the order
    of the dictionary, each value escaped and quoted. *)
Lemma dumps_integrity_payload (merkle_root version variant fingerprint : str) :
  json.dumps (VDict (integrity_payload merkle_root version variant fingerprint))
  = Str.quoted "{'merkleRoot': "
    ++ json.encode_basestring_ascii merkle_root
    ++ Str.quoted ", 'version': "
    ++ json.encode_basestring_ascii version
    ++ Str.quoted ", 'variant': "
    ++ json.encode_basestring_ascii variant
    ++ Str.quoted ", 'signerFingerprint': "
    ++ json.encode_basestring_ascii fingerprint
    ++ Str.lit "}".
Proof.
  unfold integrity_payload. cbn [json.dumps map fst snd json.join].
  generalize (json.encode_basestring_ascii merkle_root) as a.
  generalize (json.encode_basestring_ascii version) as b.
  generalize (json.encode_basestring_ascii variant) as c.
  generalize (json.encode_basestring_ascii fingerprint) as d.
  intros d c b a.
  change (json.encode_basestring_ascii (Str.lit "merkleRoot"))
    with (Str.quoted "'merkleRoot'").
  change (json.encode_basestring_ascii (Str.lit "version"))
    with (Str.quoted "'version'").
  change (json.encode_basestring_ascii (Str.lit "variant"))
    with (Str.quoted "'variant'").
  change (json.encode_basestring_ascii (Str.lit "signerFingerprint"))
    with (Str.quoted "'signerFingerprint'").
  repeat rewrite <- app_assoc. reflexivity.
Qed.


(** * Main properties *)

(** ** Key derivation *)

(** C6: on every run the simulated encapsulation returns an encapsulated
    key of exactly 1088 bytes and a shared secret of exactly 32 bytes, and
    key derivation returns a key of exactly 32 bytes, whatever the shared
    secret, the context, the public key and the state of the world. *)
Theorem secret_and_key_lengths_fixed :
  (forall (public_key : pyval) (w : World),
      exists encapsulated_key shared_secret w',
        simulate_mlkem_encapsulation public_key w
        = (Ok (encapsulated_key, shared_secret), w')
        /\ List.length encapsulated_key = 1088%nat
        /\ List.length shared_secret = 32%nat)
  /\ (forall (shared_secret info : bytes) (w : World),
         exists key,
           derive_aes_key shared_secret info w = (Ok key, w)
           /\ List.length key = 32%nat).
Proof.
  split.
  - intros pk w. eexists _, _, _.
    split; [apply simulate_mlkem_encapsulation_run|].
    split; apply random_bytes_length.
  - intros ss info w. eexists.
    split; [apply derive_aes_key_run | apply hkdf_sha256_key_length].
Qed.

(** C7: two calls of [derive_aes_key] with the same shared secret and
    context return the same key, in whatever states of the world they are
    made (random source, clock, network); the call always returns and
    leaves the world as it found it. *)
Theorem derive_aes_key_deterministic_pure
        (shared_secret info : bytes) (w1 w2 : World) :
  fst (derive_aes_key shared_secret info w1)
  = fst (derive_aes_key shared_secret info w2)
  /\ is_ok (fst (derive_aes_key shared_secret info w1)) = true
  /\ snd (derive_aes_key shared_secret info w1) = w1.
Proof. rewrite !derive_aes_key_run. repeat split. Qed.

(** C1: the hash [derive_aes_key] runs HKDF over is SHA-256, for every
    shared secret and context, and not the SHA3-256 of the documented
    server derivation: on the all-zero shared secret and the default
    context the two derivations give different keys. *)
Theorem derive_aes_key_hash_differs_from_documented :
  (forall (shared_secret info : bytes) (w : World),
      derive_aes_key shared_secret info w
      = (Ok (HKDF.derive {| HKDF.algorithm := hashes.SHA256;
                            HKDF.length := 32; HKDF.salt := None;
                            HKDF.info := info |} shared_secret), w))
  /\ fst (derive_aes_key (Bytes.zeros 32) default_info demo_world)
     = Ok (Bytes.fromhex
             "18432c59c5aa7951b18115e354aa21f7758a310035db6ec2fc3615dbdc0d7eb1")
  /\ documented_server_key (Bytes.zeros 32) default_info
     = Bytes.fromhex
         "ee8e09c0f15eacf9a5ca045a8fe809e6fe3a2537e1f8d5268e63012dafd6b0c4"
  /\ fst (derive_aes_key (Bytes.zeros 32) default_info demo_world)
     <> Ok (documented_server_key (Bytes.zeros 32) default_info).
Proof.
  assert (Hclient :
            hkdf_sha256_key (Bytes.zeros 32) default_info
            = Bytes.fromhex
                "18432c59c5aa7951b18115e354aa21f7758a310035db6ec2fc3615dbdc0d7eb1")
    by (vm_compute; reflexivity).
  assert (Hserver :
            documented_server_key (Bytes.zeros 32) default_info
            = Bytes.fromhex
                "ee8e09c0f15eacf9a5ca045a8fe809e6fe3a2537e1f8d5268e63012dafd6b0c4")
    by (vm_compute; reflexivity).
  split; [intros; apply derive_aes_key_run|].
  rewrite derive_aes_key_run. cbn [fst]. rewrite Hclient, Hserver.
  repeat split. vm_compute. discriminate.
Qed.

(** ** The simulated encapsulation *)

(** C9: the simulated encapsulation never reads the public key: given the
    same random source, runs with different public keys return the same
    encapsulated key and shared secret and leave the same world. *)
Theorem encapsulation_ignores_public_key
        (public_key1 public_key2 : pyval) (w : World) :
  exists encapsulated_key shared_secret,
    simulate_mlkem_encapsulation public_key1 w
    = (Ok (encapsulated_key, shared_secret), advance 1120 w)
    /\ simulate_mlkem_encapsulation public_key2 w
       = (Ok (encapsulated_key, shared_secret), advance 1120 w).
Proof.
  eexists _, _. split; apply simulate_mlkem_encapsulation_run.
Qed.

Lemma byte_xor_one_differs (b : byte) : Bytes.xor b x01 <> b.
Proof. destruct b; discriminate. Qed.

Lemma random_bytes_agree (w w' : World) (from n : nat) :
  (forall i, (from <= i < from + n)%nat -> urandom w' i = urandom w i) ->
  random_bytes w' from n = random_bytes w from n.
Proof.
  intros H. unfold random_bytes. apply map_ext_in.
  intros i Hi. apply in_seq in Hi. apply H. exact Hi.
Qed.

(** C3, as the code has it: the simulated encapsulation returns 1088
    random bytes as ciphertext and 32 further, independent random bytes
    as shared secret, so no decapsulation recovers the secret: for every
    decapsulation function, private key, public key and world there is a
    world differing in the random source only whose run returns a
    ciphertext and a secret the decapsulation of the ciphertext misses. *)
Theorem simulated_encapsulation_has_no_decapsulation
        (decapsulate : bytes -> bytes -> bytes)
        (private_key : bytes) (public_key : pyval) (w : World) :
  exists source ciphertext shared_secret,
    fst (simulate_mlkem_encapsulation public_key (with_urandom source w))
    = Ok (ciphertext, shared_secret)
    /\ List.length ciphertext = 1088%nat
    /\ List.length shared_secret = 32%nat
    /\ decapsulate private_key ciphertext <> shared_secret.
Proof.
  set (ct := random_bytes w (consumed w) 1088).
  set (ss := random_bytes w (consumed w + 1088) 32).
  destruct (list_eq_dec Byte.byte_eq_dec (decapsulate private_key ct) ss)
    as [Heq|Hne].
  - set (pos := (consumed w + 1088)%nat).
    set (source := fun i => if (i =? pos)%nat
                            then Bytes.xor (urandom w i) x01
                            else urandom w i).
    exists source, ct,
      (random_bytes (with_urandom source w) (consumed w + 1088) 32).
    rewrite simulate_mlkem_encapsulation_run. cbn [fst].
    change (consumed (with_urandom source w)) with (consumed w).
    assert (Hct : random_bytes (with_urandom source w) (consumed w) 1088 = ct).
    { apply random_bytes_agree. intros i Hi. cbn [with_urandom urandom].
      unfold source. destruct (Nat.eqb_spec i pos); [lia | reflexivity]. }
    rewrite Hct. split; [reflexivity|].
    split; [apply random_bytes_length|].
    split; [apply random_bytes_length|].
    rewrite Heq. unfold ss, random_bytes. fold pos.
    change (seq pos 32) with (pos :: seq (S pos) 31). cbn [map].
    intros H. injection H as H _. cbn [with_urandom urandom] in H.
    unfold source in H. rewrite Nat.eqb_refl in H.
    symmetry in H. exact (byte_xor_one_differs _ H).
  - exists (urandom w), ct, ss.
    replace (with_urandom (urandom w) w) with w by (destruct w; reflexivity).
    rewrite simulate_mlkem_encapsulation_run. cbn [fst].
    repeat split; try apply random_bytes_length. exact Hne.
Qed.

(** C3, counterexample: two runs of the encapsulation of the same public
    key, on random sources that agree on the first 1088 bytes, return the
    same ciphertext with different shared secrets; no decapsulation of
    that ciphertext returns both. *)
Lemma simulated_secret_not_determined_by_ciphertext :
  exists ciphertext secret1 secret2,
    fst (simulate_mlkem_encapsulation demo_key_info demo_world)
    = Ok (ciphertext, secret1)
    /\ fst (simulate_mlkem_encapsulation demo_key_info
                                         demo_world_other_secret)
       = Ok (ciphertext, secret2)
    /\ secret1 <> secret2
    /\ (forall (decapsulate : bytes -> bytes -> bytes) (private_key : bytes),
           ~ (decapsulate private_key ciphertext = secret1
              /\ decapsulate private_key ciphertext = secret2)).
Proof.
  exists (random_bytes demo_world 0 1088), (random_bytes demo_world 1088 32),
    (random_bytes demo_world_other_secret 1088 32).
  assert (Hne : random_bytes demo_world 1088 32
                <> random_bytes demo_world_other_secret 1088 32)
    by (vm_compute; discriminate).
  rewrite !simulate_mlkem_encapsulation_run. cbn [fst].
  split; [reflexivity|].
  split.
  - change (consumed demo_world_other_secret) with 0%nat.
    assert (Hct : random_bytes demo_world_other_secret 0 1088
                  = random_bytes demo_world 0 1088)
      by (vm_compute; reflexivity).
    rewrite Hct. reflexivity.
  - split; [exact Hne|].
    intros decapsulate private_key [H1 H2]. apply Hne. congruence.
Qed.

(** ** Payload encryption *)

(** C4: for every payload and every key of an accepted size (16, 24 or
    32 bytes, the derived key having 32), [encrypt_payload] returns the
    nonce followed by the AES-GCM output for that nonce and the JSON text
    of the payload, which is the ciphertext with its 16-byte tag; the
    nonce is the twelve bytes the random source delivers next at that
    call, whatever the key and the payload, and the call moves the source
    past them. *)
Theorem encrypt_payload_nonce_then_ciphertext
        (key : bytes) (payload : dict) (w : World) :
  AESGCM.valid_key_size key = true ->
  let nonce := random_bytes w (consumed w) 12 in
  exists plaintext sealed,
    Str.encode (json.dumps (VDict payload)) = Ok plaintext
    /\ AESGCM.encrypt {| AESGCM.key := key |} nonce plaintext None
       = Ok sealed
    /\ encrypt_payload key payload w = (Ok (nonce ++ sealed), advance 12 w)
    /\ List.length nonce = 12%nat
    /\ List.length sealed = (List.length plaintext + 16)%nat
    /\ consumed (advance 12 w) = (consumed w + 12)%nat.
Proof.
  intros Hkey nonce.
  exists (map Str.byte_of_N (json.dumps (VDict payload))),
    (GCM.encrypt key nonce
                 (map Str.byte_of_N (json.dumps (VDict payload))) []).
  split; [apply encode_dumps|].
  split.
  { unfold AESGCM.encrypt. cbn [AESGCM.key].
    unfold nonce at 1 2. rewrite random_bytes_length. reflexivity. }
  split; [apply encrypt_payload_run; exact Hkey|].
  split; [apply random_bytes_length|].
  split; [apply gcm_encrypt_length; exact Hkey | reflexivity].
Qed.

Lemma encrypt_payload_nonce_then_ciphertext_witness :
  exists plaintext sealed,
    Str.encode (json.dumps (VDict (integrity_payload
                                     main_merkle_root main_version
                                     main_variant main_signer_fingerprint)))
    = Ok plaintext
    /\ AESGCM.encrypt {| AESGCM.key := Bytes.zeros 32 |}
                      (random_bytes demo_world 0 12) plaintext None
       = Ok sealed
    /\ encrypt_payload (Bytes.zeros 32)
                       (integrity_payload main_merkle_root main_version
                                          main_variant main_signer_fingerprint)
                       demo_world
       = (Ok (random_bytes demo_world 0 12 ++ sealed), advance 12 demo_world)
    /\ List.length (random_bytes demo_world 0 12) = 12%nat
    /\ List.length sealed = (List.length plaintext + 16)%nat
    /\ consumed (advance 12 demo_world) = 12%nat.
Proof.
  exact (encrypt_payload_nonce_then_ciphertext
           (Bytes.zeros 32)
           (integrity_payload main_merkle_root main_version main_variant
                              main_signer_fingerprint)
           demo_world eq_refl).
Defined.

(** ** The request *)

(** C10: every request dictionary [create_verification_request] returns
    holds exactly the three fields [encapsulatedKey], [encryptedPayload]
    and [timestamp], in that order; it has no [keyId]. *)
Theorem request_has_three_fields
        (merkle_root version variant signer_fingerprint : str)
        (w w' : World) (req : dict) :
  create_verification_request merkle_root version variant
                              signer_fingerprint w = (Ok req, w') ->
  Dict.keys req = [Str.lit "encapsulatedKey"; Str.lit "encryptedPayload";
                   Str.lit "timestamp"]
  /\ Dict.get req (Str.lit "keyId") = None.
Proof.
  intros Hrun. destruct (serves_key_descriptor w) eqn:Hserved.
  - rewrite create_verification_request_run in Hrun by exact Hserved.
    apply run_ok_inv in Hrun. destruct Hrun as [Hreq _]. subst req.
    split; [apply request_keys | apply request_get].
  - destruct (create_verification_request_fails
                merkle_root version variant signer_fingerprint w Hserved)
      as [e He].
    rewrite He in Hrun. discriminate Hrun.
Qed.

Lemma request_has_three_fields_witness :
  exists req w',
    create_verification_request main_merkle_root main_version main_variant
                                main_signer_fingerprint demo_world
    = (Ok req, w')
    /\ Dict.keys req = [Str.lit "encapsulatedKey";
                        Str.lit "encryptedPayload"; Str.lit "timestamp"]
    /\ Dict.get req (Str.lit "keyId") = None.
Proof.
  eexists _, _.
  refine ((fun H => conj H (request_has_three_fields _ _ _ _ _ _ _ H)) _).
  exact (create_verification_request_run
           main_merkle_root main_version main_variant
           main_signer_fingerprint demo_world eq_refl).
Defined.







(** ** The script on the values of [main] *)

Example main_plaintext :
  json.dumps (VDict (integrity_payload main_merkle_root main_version
                                       main_variant main_signer_fingerprint))
  = Str.quoted
      "{'merkleRoot': 'a1b2c3d4e5f6789012345678901234567890123456789012345678901234abcd', 'version': '1.0.0', 'variant': 'release', 'signerFingerprint': 'fedcba0987654321fedcba0987654321fedcba0987654321fedcba09876543fe'}".
Proof. vm_compute. reflexivity. Qed.

(** The whole run computes: the encrypted payload of the request decodes
    to 12 + 213 + 16 bytes, the first twelve being the nonce. *)
Example main_request_computes :
  match fst (create_verification_request
               main_merkle_root main_version main_variant
               main_signer_fingerprint demo_world) with
  | Ok req =>
      match Dict.get req (Str.lit "encryptedPayload") with
      | Some (VStr text) =>
          option_map (fun bs => (List.length bs, firstn 12 bs))
                     (decode_field text)
      | _ => None
      end
  | Raise _ => None
  end
  = Some (241%nat, random_bytes demo_world 1120 12).
Proof. vm_compute. reflexivity. Qed.

(** * Further properties of the script *)

(** ** Fetching the public key *)

(** Whatever it returns, the fetch logs its one call and changes nothing
    else. *)
Lemma get_server_public_key_logs (w : World) :
  exists r, get_server_public_key w = (r, log_call (public_key_call w) w).
Proof.
  destruct (network w (public_key_call w)) as [|code [v|]] eqn:Hnet.
  - destruct (get_server_public_key_fails w) as [e He];
      [rewrite Hnet; exact I | eexists; exact He].
  - destruct ((400 <=? code) && (code <? 600)) eqn:Hcode.
    + destruct (get_server_public_key_fails w) as [e He];
        [rewrite Hnet; exact Hcode | eexists; exact He].
    + eexists. apply (get_server_public_key_run w code v Hnet Hcode).
  - destruct (get_server_public_key_fails w) as [e He];
      [rewrite Hnet; exact I | eexists; exact He].
Qed.


(** ** Failures of [create_verification_request] *)

(** X2: whatever makes the fetch of the public key raise makes
    [create_verification_request] raise the same exception, in the world
    the fetch left: nothing was drawn from the random source. *)
Theorem create_verification_request_propagates_fetch_error
        (merkle_root version variant signer_fingerprint : str)
        (w w1 : World) (e : exn) :
  get_server_public_key w = (Raise e, w1) ->
  create_verification_request merkle_root version variant
                              signer_fingerprint w = (Raise e, w1)
  /\ consumed w1 = consumed w.
Proof.
  intros H. split.
  - unfold create_verification_request. apply bind_raise. exact H.
  - pose proof (get_server_public_key_logs w) as [r Hr].
    rewrite Hr in H. apply (f_equal snd) in H. cbn [snd] in H.
    subst w1. reflexivity.
Qed.

Lemma create_verification_request_propagates_fetch_error_witness :
  create_verification_request main_merkle_root main_version main_variant
                              main_signer_fingerprint offline_world
  = (Raise ConnectionError,
     log_call (public_key_call offline_world) offline_world)
  /\ consumed (log_call (public_key_call offline_world) offline_world)
     = consumed offline_world.
Proof.
  exact (create_verification_request_propagates_fetch_error
           main_merkle_root main_version main_variant
           main_signer_fingerprint offline_world _ ConnectionError
           eq_refl).
Defined.



(** X4: a public-key answer that is JSON but no object (a list, a string,
    a number, [null]) makes [create_verification_request] raise
    [TypeError] at the first subscript, before any random byte is
    drawn. *)
Theorem non_object_descriptor_raises_TypeError
        (merkle_root version variant signer_fingerprint : str)
        (w : World) (code : Z) (answer : pyval) :
  network w (public_key_call w) = Response code (Some answer) ->
  (400 <=? code) && (code <? 600) = false ->
  (forall d, answer <> VDict d) ->
  create_verification_request merkle_root version variant
                              signer_fingerprint w
  = (Raise TypeError, log_call (public_key_call w) w).
Proof.
  intros Hnet Hcode Hobj. unfold create_verification_request.
  rewrite (bind_ok _ _ _ _ _
             (get_server_public_key_run w code _ Hnet Hcode)).
  apply bind_raise. unfold lift.
  destruct answer; try reflexivity. exfalso. exact (Hobj d eq_refl).
Qed.

Lemma non_object_descriptor_raises_TypeError_witness :
  let w := with_network (fun _ => Response 200 (Some (VList []))) demo_world in
  create_verification_request main_merkle_root main_version main_variant
                              main_signer_fingerprint w
  = (Raise TypeError, log_call (public_key_call w) w).
Proof.
  exact (non_object_descriptor_raises_TypeError
           main_merkle_root main_version main_variant
           main_signer_fingerprint
           (with_network (fun _ => Response 200 (Some (VList []))) demo_world)
           200 (VList []) eq_refl eq_refl
           (fun d H => ltac:(discriminate H))).
Defined.


(** ** Sending the request *)




(** ** The entry point *)


(** ** Encryption *)

(** X8: [encrypt_payload] draws its nonce before it builds the cipher:
    with a key whose length is none of 16, 24 and 32 bytes it raises
    [ValueError], and the twelve random bytes are drawn all the same. *)
Theorem encrypt_payload_rejects_key_after_drawing_nonce
        (key : bytes) (payload : dict) (w : World) :
  AESGCM.valid_key_size key = false ->
  encrypt_payload key payload w = (Raise ValueError, advance 12 w)
  /\ consumed (snd (encrypt_payload key payload w)) = (consumed w + 12)%nat.
Proof.
  intros Hkey. rewrite encrypt_payload_bad_key by exact Hkey.
  split; reflexivity.
Qed.

Lemma encrypt_payload_rejects_key_after_drawing_nonce_witness :
  encrypt_payload (Bytes.zeros 31) [] demo_world
  = (Raise ValueError, advance 12 demo_world)
  /\ consumed (snd (encrypt_payload (Bytes.zeros 31) [] demo_world))
     = 12%nat.
Proof.
  exact (encrypt_payload_rejects_key_after_drawing_nonce
           (Bytes.zeros 31) [] demo_world eq_refl).
Defined.

(** X9: two calls of [encrypt_payload] in a row, under any keys and for
    any payloads, take their nonces from consecutive, disjoint slices of
    the random source: bytes [c .. c+11] and bytes [c+12 .. c+23]. *)
Theorem successive_nonces_from_disjoint_slices
        (key1 key2 : bytes) (payload1 payload2 : dict) (w : World) :
  AESGCM.valid_key_size key1 = true ->
  AESGCM.valid_key_size key2 = true ->
  exists sealed1 sealed2,
    (first <- encrypt_payload key1 payload1 ;;
     second <- encrypt_payload key2 payload2 ;;
     ret (first, second)) w
    = (Ok (random_bytes w (consumed w) 12 ++ sealed1,
           random_bytes w (consumed w + 12) 12 ++ sealed2),
       advance 24 w).
Proof.
  intros H1 H2. eexists _, _.
  rewrite (bind_ok _ _ _ _ _ (encrypt_payload_run key1 payload1 w H1)).
  rewrite (bind_ok _ _ _ _ _
             (encrypt_payload_run key2 payload2 (advance 12 w) H2)).
  unfold ret. rewrite advance_advance. reflexivity.
Qed.

Lemma successive_nonces_from_disjoint_slices_witness :
  exists sealed1 sealed2,
    (first <- encrypt_payload (Bytes.zeros 32) [] ;;
     second <- encrypt_payload (Bytes.zeros 16) [] ;;
     ret (first, second)) demo_world
    = (Ok (random_bytes demo_world 0 12 ++ sealed1,
           random_bytes demo_world 12 12 ++ sealed2),
       advance 24 demo_world).
Proof.
  exact (successive_nonces_from_disjoint_slices
           (Bytes.zeros 32) (Bytes.zeros 16) [] [] demo_world
           eq_refl eq_refl).
Defined.

Lemma to_N_byte_of_N (c : N) :
  (c < 256)%N -> Byte.to_N (Str.byte_of_N c) = c.
Proof.
  intros H. unfold Str.byte_of_N.
  pose proof (to_Z_of_Z (Z.of_N c)) as E. unfold Bytes.to_Z in E.
  rewrite Z.mod_small in E by (split; [apply N2Z.is_nonneg | lia]).
  apply N2Z.inj. exact E.
Qed.

Lemma ascii_bytes_of_ascii_str (s : str) :
  ascii_str s -> ascii_bytes (map Str.byte_of_N s).
Proof.
  unfold ascii_str, ascii_bytes. intros H. rewrite Forall_map.
  eapply Forall_impl; [|exact H].
  intros c Hc. cbv beta in Hc |- *. rewrite to_N_byte_of_N; lia.
Qed.

(** X15: the plaintext is pure ASCII whatever the payload holds: every
    character outside printable ASCII is escaped by [json.dumps], so the
    UTF-8 encoding cannot raise (not even on a lone surrogate in a field,
    which [str.encode] alone refuses) and gives one byte below 128 per
    character of the JSON text. *)
Theorem plaintext_is_ascii (payload : dict) :
  exists plaintext,
    Str.encode (json.dumps (VDict payload)) = Ok plaintext
    /\ List.length plaintext = List.length (json.dumps (VDict payload))
    /\ ascii_bytes plaintext
    /\ Str.encode [0xD800%N] = Raise UnicodeError
    /\ is_ok (Str.encode (json.dumps (VStr [0xD800%N]))) = true.
Proof.
  exists (map Str.byte_of_N (json.dumps (VDict payload))).
  split; [apply encode_dumps|].
  split; [apply length_map|].
  split; [apply ascii_bytes_of_ascii_str, dumps_ascii|].
  split; reflexivity.
Qed.

(** ** Key derivation *)

(** X14: with a 32-byte digest and a 32-byte key the expansion loop of
    HKDF runs exactly once, so the key [derive_aes_key] returns is
    HMAC-SHA-256, keyed with the HMAC of the shared secret under 32 zero
    bytes, of the context followed by the byte 01. *)
Theorem derive_aes_key_is_one_hmac_block
        (shared_secret info : bytes) (w : World) :
  derive_aes_key shared_secret info w
  = (Ok (hmac hashes.SHA256
              (hmac hashes.SHA256 (Bytes.zeros 32) shared_secret)
              (info ++ [x01])), w).
Proof.
  rewrite derive_aes_key_run. unfold hkdf_sha256_key.
  rewrite hkdf_sha256_32_derive. reflexivity.
Qed.

(** ** The text encoding *)

Lemma base64_char_symbol (n : Z) : base64_symbol (base64.char n).
Proof.
  left. unfold base64.char. apply nth_In.
  pose proof (Z.mod_pos_bound n 64 ltac:(lia)).
  change (List.length base64.alphabet) with 64%nat. lia.
Qed.

Lemma b64encode_length (bs : bytes) :
  List.length (base64.b64encode bs) = (4 * ((List.length bs + 2) / 3))%nat.
Proof.
  induction bs as [|a|a b|a b c rest IH] using bytes_ind3;
    try reflexivity.
  cbn [base64.b64encode List.length]. rewrite IH.
  replace (S (S (S (List.length rest))) + 2)%nat
    with (List.length rest + 2 + 1 * 3)%nat by lia.
  rewrite Nat.div_add by lia. lia.
Qed.

(** X11: [b64encode] gives four characters for every group of three
    bytes, the last group padded: the text of [n] bytes has
    [4 * ceil(n / 3)] characters, all of them letters of the base64
    alphabet or the padding sign. *)
Theorem b64encode_length_and_alphabet (bs : bytes) :
  List.length (base64.b64encode bs) = (4 * ((List.length bs + 2) / 3))%nat
  /\ Forall base64_symbol (base64.b64encode bs).
Proof.
  split; [apply b64encode_length|].
  induction bs as [|a|a b|a b c rest IH] using bytes_ind3;
    cbn [base64.b64encode];
    repeat (constructor; [first [apply base64_char_symbol
                                | right; reflexivity]|]);
    first [exact IH | constructor].
Qed.



(** ** The timestamp *)




(** ** What the request depends on *)



(** ** Requests in a row *)



(** ** Fields cannot break the JSON text *)

Lemma hex_digit_is_hex (n : N) :
  json_hex (json.hex_digit (N.land n 15)) = true.
Proof.
  change 15%N with (N.ones 4). rewrite N.land_ones.
  pose proof (N.mod_lt n (2 ^ 4) ltac:(discriminate)) as H.
  change (2 ^ 4)%N with 16%N in *.
  set (m := (n mod 16)%N) in *. clearbody m.
  unfold json.hex_digit, json_hex.
  destruct (m <? 10)%N eqn:E.
  - apply N.ltb_lt in E.
    replace ((48 <=? 48 + m) && (48 + m <=? 57))%N with true; [reflexivity|].
    symmetry. apply andb_true_iff. split; apply N.leb_le; lia.
  - apply N.ltb_ge in E.
    replace ((97 <=? 87 + m) && (87 + m <=? 102))%N with true;
      [rewrite orb_true_r; reflexivity|].
    symmetry. apply andb_true_iff. split; apply N.leb_le; lia.
Qed.

Lemma u_escape_unit (n : N) : json_string_unit (json.u_escape n) = true.
Proof.
  unfold json.u_escape, json_string_unit.
  rewrite !hex_digit_is_hex. reflexivity.
Qed.

Lemma escape_char_units (c : N) :
  exists units,
    json.escape_char c = concat units
    /\ Forall (fun u => json_string_unit u = true) units.
Proof.
  unfold json.escape_char.
  destruct (c =? 0x22)%N eqn:Equote;
    [exists [[0x5C; 0x22]%N]; split; [reflexivity | repeat constructor]|].
  destruct (c =? 0x5C)%N eqn:Eback;
    [exists [[0x5C; 0x5C]%N]; split; [reflexivity | repeat constructor]|].
  destruct ((0x20 <=? c) && (c <=? 0x7E))%N eqn:Eprint.
  { exists [[c]]. split; [reflexivity|]. constructor; [|constructor].
    apply andb_true_iff in Eprint. destruct Eprint as [Hlo _].
    cbn [json_string_unit]. rewrite Hlo, Equote, Eback. reflexivity. }
  destruct (c =? 0x0A)%N;
    [exists [[0x5C; 0x6E]%N]; split; [reflexivity | repeat constructor]|].
  destruct (c =? 0x0D)%N;
    [exists [[0x5C; 0x72]%N]; split; [reflexivity | repeat constructor]|].
  destruct (c =? 0x09)%N;
    [exists [[0x5C; 0x74]%N]; split; [reflexivity | repeat constructor]|].
  destruct (c =? 0x08)%N;
    [exists [[0x5C; 0x62]%N]; split; [reflexivity | repeat constructor]|].
  destruct (c =? 0x0C)%N;
    [exists [[0x5C; 0x66]%N]; split; [reflexivity | repeat constructor]|].
  destruct (c <? 0x10000)%N.
  - exists [json.u_escape c]. split; [cbn [concat]; rewrite app_nil_r; reflexivity|].
    constructor; [apply u_escape_unit | constructor].
  - eexists [json.u_escape _; json.u_escape _].
    split; [cbn [concat]; rewrite app_nil_r; reflexivity|].
    constructor; [apply u_escape_unit|].
    constructor; [apply u_escape_unit | constructor].
Qed.

(** X17: no field can break out of its JSON string: whatever characters a
    field holds (quotes, backslashes, control characters, any Unicode),
    its text in the plaintext is a quote, a sequence of units each of
    which is an unescaped character other than the quote, the backslash
    and the control characters or a complete escape of the JSON grammar,
    and a closing quote. *)
Theorem field_text_is_json_string (field : str) :
  exists units,
    json.encode_basestring_ascii field
    = (0x22%N :: concat units) ++ [0x22%N]
    /\ Forall (fun u => json_string_unit u = true) units.
Proof.
  unfold json.encode_basestring_ascii.
  assert (H : exists units,
             flat_map json.escape_char field = concat units
             /\ Forall (fun u => json_string_unit u = true) units).
  { induction field as [|c field [units [E F]]].
    - exists []. split; [reflexivity | constructor].
    - destruct (escape_char_units c) as [us [Ec Fc]].
      exists (us ++ units). cbn [flat_map].
      rewrite concat_app, Ec, E. split; [reflexivity|].
      apply Forall_app. split; assumption. }
  destruct H as [units [E F]]. exists units. rewrite E.
  split; [reflexivity | exact F].
Qed.
